(** * acme2certifier: the account service and the WSGI dispatcher

    A shallow embedding of [acme/account.py] (class [Account]) and of
    [examples/acme2certifier_wsgi.py] (the URL table, the handlers and the
    status line they emit), with the properties the specification states
    about them.

    Python values are modelled as they reach the code: decoded JSON documents
    are values of [json], Python dictionaries are association lists with
    string keys, an operation that can raise returns a [res], and the account
    table together with the source of randomness is threaded explicitly as a
    [World]. *)

From Stdlib Require Import ZArith List String Ascii Bool Lia DecimalString.
Import ListNotations.
Local Open Scope string_scope.
Local Open Scope Z_scope.

(** ** Python values *)

Module Py.

(** Exceptions the modelled code can raise. *)
Inductive exn : Type :=
| KeyError
| TypeError
| AttributeError.

Inductive res (A : Type) : Type :=
| Ok (a : A)
| Raise (e : exn).
Arguments Ok {A} a.
Arguments Raise {A} e.

Definition bind {A B : Type} (m : res A) (f : A -> res B) : res B :=
  match m with
  | Ok a => f a
  | Raise e => Raise e
  end.

(** A decoded JSON document ([json.loads]).  Numbers are integers: the
    account messages carry no fractional number. *)
#[warnings="-register-all"]
Inductive json : Type :=
| JNull
| JBool (b : bool)
| JNum (n : Z)
| JStr (s : string)
| JList (l : list json)
| JDict (d : list (string * json)).

(** A Python [dict] with string keys; the first binding of a key is the
    one [d[k]] reads. *)
Definition dict : Type := list (string * json).

Fixpoint lookup (k : string) (d : dict) : option json :=
  match d with
  | [] => None
  | (k', v) :: d' => if String.eqb k k' then Some v else lookup k d'
  end.

(** [k in d] for a dictionary [d]. *)
Definition has_key (k : string) (d : dict) : bool :=
  match lookup k d with
  | Some _ => true
  | None => false
  end.

(** [d[k]] for a dictionary [d]. *)
Definition getitem (d : dict) (k : string) : res json :=
  match lookup k d with
  | Some v => Ok v
  | None => Raise KeyError
  end.

(** Structural equality of JSON documents ([==] on decoded values). *)
Fixpoint json_eqb (x y : json) {struct x} : bool :=
  match x, y with
  | JNull, JNull => true
  | JBool a, JBool b => Bool.eqb a b
  | JNum a, JNum b => Z.eqb a b
  | JStr a, JStr b => String.eqb a b
  | JList a, JList b =>
      (fix list_eqb (l1 l2 : list json) {struct l1} : bool :=
         match l1, l2 with
         | [], [] => true
         | v1 :: r1, v2 :: r2 => json_eqb v1 v2 && list_eqb r1 r2
         | _, _ => false
         end) a b
  | JDict a, JDict b =>
      (fix dict_eqb (l1 l2 : dict) {struct l1} : bool :=
         match l1, l2 with
         | [], [] => true
         | (k1, v1) :: r1, (k2, v2) :: r2 =>
             String.eqb k1 k2 && json_eqb v1 v2 && dict_eqb r1 r2
         | _, _ => false
         end) a b
  | _, _ => false
  end.

(** Truth value of a JSON value in a Python condition. *)
Definition truthy (v : json) : bool :=
  match v with
  | JNull => false
  | JBool b => b
  | JNum n => negb (n =? 0)
  | JStr s => negb (String.eqb s "")
  | JList l => match l with [] => false | _ => true end
  | JDict d => match d with [] => false | _ => true end
  end.

(** [sub in s] for two strings. *)
Fixpoint contains (sub s : string) : bool :=
  String.prefix sub s ||
  match s with
  | EmptyString => false
  | String _ s' => contains sub s'
  end.

(** [k in v] where [v] is any decoded value: key test on a dictionary,
    membership on a list, substring test on a string, [TypeError] on the
    values that are not containers. *)
Definition py_in (k : string) (v : json) : res bool :=
  match v with
  | JDict d => Ok (has_key k d)
  | JList l => Ok (existsb (json_eqb (JStr k)) l)
  | JStr s => Ok (contains k s)
  | JNull | JBool _ | JNum _ => Raise TypeError
  end.

(** [v[k]] with a string subscript [k]: defined on dictionaries only. *)
Definition py_getitem (v : json) (k : string) : res json :=
  match v with
  | JDict d => getitem d k
  | _ => Raise TypeError
  end.

(** [str.lower()] on the ASCII letters; the other bytes are kept.  (The
    only use compares the result with an ASCII word.) *)
Definition lower_ascii (c : ascii) : ascii :=
  let n := nat_of_ascii c in
  if (Nat.leb 65 n && Nat.leb n 90)%bool then ascii_of_nat (n + 32) else c.

Fixpoint lower (s : string) : string :=
  match s with
  | EmptyString => EmptyString
  | String c s' => String (lower_ascii c) (lower s')
  end.

(** [v.lower()]: only strings have the method. *)
Definition py_lower (v : json) : res string :=
  match v with
  | JStr s => Ok (lower s)
  | _ => Raise AttributeError
  end.

(** [sep.join(parts)] on strings. *)
Fixpoint join (sep : string) (parts : list string) : string :=
  match parts with
  | [] => ""
  | [p] => p
  | p :: rest => p ++ sep ++ join sep rest
  end.

Fixpoint chars (s : string) : list string :=
  match s with
  | EmptyString => []
  | String c s' => String c EmptyString :: chars s'
  end.

Fixpoint all_strings (l : list json) : option (list string) :=
  match l with
  | [] => Some []
  | JStr s :: r =>
      match all_strings r with
      | Some ss => Some (s :: ss)
      | None => None
      end
  | _ :: _ => None
  end.

(** [sep.join(v)] for a decoded value [v]: the items of a list (which must
    all be strings), the characters of a string, the keys of a dictionary;
    [TypeError] otherwise. *)
Definition py_join (sep : string) (v : json) : res string :=
  match v with
  | JList l =>
      match all_strings l with
      | Some ss => Ok (join sep ss)
      | None => Raise TypeError
      end
  | JStr s => Ok (join sep (chars s))
  | JDict d => Ok (join sep (map fst d))
  | JNull | JBool _ | JNum _ => Raise TypeError
  end.

(** [str(n)] for an integer. *)
Definition str_of_Z (n : Z) : string := NilZero.string_of_int (Z.to_int n).

(** ['{0}'.format(v)] for a value that is a string or [None]. *)
Definition format_opt (v : option string) : string :=
  match v with
  | Some s => s
  | None => "None"
  end.

End Py.

Import Py.

Notation "x <- m ;; k" := (bind m (fun x => k))
  (at level 61, m at next level, right associativity).
Notation "' pat <- m ;; k" := (bind m (fun x => match x with pat => k end))
  (at level 61, pat pattern, m at next level, right associativity).

(** ** The account table and the state of the process *)

(** The [data_dic] that [Account.add] hands to the store: its four
    entries.  [json.dumps] is injective on decoded documents, so the text it
    makes of [jwk] and [contact] is represented by the document itself. *)
Record data_dic : Type := {
  dd_name : string;
  dd_alg : json;
  dd_jwk : json;
  dd_contact : json
}.

(** One row of the account table: the entries of a [data_dic] and the
    status of the account, "valid" or "deactivated". *)
Record account_row : Type := {
  row_name : string;
  row_alg : json;
  row_jwk : json;
  row_contact : json;
  row_status : string
}.

Definition DBstore : Type := list account_row.

(** The state the account service works on: the account table, and the
    random draws of the process ([entropy], of which [drawn] are used up). *)
Record World : Type := {
  dbstore : DBstore;
  entropy : nat -> nat;
  drawn : nat
}.

Definition set_dbstore (w : World) (db : DBstore) : World :=
  {| dbstore := db; entropy := entropy w; drawn := drawn w |}.

Module Store.

(** Modelled from the spec: the value a row has in a column of the account
    table ([acme.db_handler] is not among the sources).  The columns are the
    entries [Account.add] stores, and [modulus], the [n] member of the stored
    account key, which [Account.onlyreturnexisting] searches. *)
Definition column (c : string) (r : account_row) : option json :=
  if String.eqb c "name" then Some (JStr (row_name r))
  else if String.eqb c "alg" then Some (row_alg r)
  else if String.eqb c "jwk" then Some (row_jwk r)
  else if String.eqb c "contact" then Some (row_contact r)
  else if String.eqb c "modulus" then
    match row_jwk r with
    | JDict d => lookup "n" d
    | _ => None
    end
  else None.

Definition column_is (c : string) (v : json) (r : account_row) : bool :=
  match column c r with
  | Some v' => json_eqb v' v
  | None => false
  end.

(** Modelled from the spec: [DBstore.account_lookup] ([acme.db_handler] is
    not among the sources).  The store interface of the spec offers a lookup
    of accounts by a key; the result is the first row whose column holds
    the value, or nothing. *)
Definition account_lookup (c : string) (v : json) (db : DBstore)
  : option account_row :=
  find (column_is c v) db.

(** Modelled from the spec: [DBstore.account_add] ([acme.db_handler] is not
    among the sources).  Account creation is keyed on the account key: when a
    row with the same key exists its name is returned and nothing is stored
    ([new] is [false]), otherwise the row is stored under the name the caller
    chose, with the status "valid" ([new] is [true]). *)
Definition account_add (d : data_dic) (db : DBstore)
  : (string * bool) * DBstore :=
  match account_lookup "jwk" (dd_jwk d) db with
  | Some r => ((row_name r, false), db)
  | None =>
      ((dd_name d, true),
       (db ++ [{| row_name := dd_name d; row_alg := dd_alg d;
                  row_jwk := dd_jwk d; row_contact := dd_contact d;
                  row_status := "valid" |}])%list)
  end.

Definition named (aname : option string) (r : account_row) : bool :=
  match aname with
  | Some a => String.eqb (row_name r) a
  | None => false
  end.

(** The row with its status set to "deactivated", when it has the name. *)
Definition deactivate (aname : option string) (r : account_row) : account_row :=
  if named aname r then
    {| row_name := row_name r; row_alg := row_alg r; row_jwk := row_jwk r;
       row_contact := row_contact r; row_status := "deactivated" |}
  else r.

(** Modelled from the spec: [DBstore.account_delete] ([acme.db_handler] is
    not among the sources).  An account is never destroyed: deactivation is
    a status transition.  The rows of that name get the status
    "deactivated", and the result tells whether there was one. *)
Definition account_delete (aname : option string) (db : DBstore)
  : bool * DBstore :=
  (existsb (named aname) db, map (deactivate aname) db).



End Store.

(** ** Collaborators of the account service that are not among the sources *)

(** [acme.helper]: [validate_email] (the truth value of its result). *)
Class Helper : Type := {
  validate_email : json -> bool
}.

(** A status triple [(code, message, detail)]. *)
Definition status : Type := (Z * option string * option string)%type.

(** A [response_dic]: a dictionary with the optional entries [code],
    [header] and [data]. *)
Record response : Type := {
  r_code : option Z;
  r_header : option (list (string * string));
  r_data : option json
}.

Definition empty_response : response :=
  {| r_code := None; r_header := None; r_data := None |}.

(** What [Message.check] returns:
    [(code, message, detail, protected, payload, account_name)]. *)
Definition check_result : Type :=
  (Z * option string * option string * dict * dict * option string)%type.

(** [acme.message]: the envelope verifier [check content skip_signature_check]
    (it reads the account table to resolve a [kid]; the nonce pool it keeps
    is outside this model) and [prepare_response response_dic status_dic]. *)
Class Message : Type := {
  check : string -> bool -> DBstore -> check_result;
  prepare_response : response -> status -> response
}.

(** The digits a random byte is written with. *)
Definition hexdigits : list ascii := list_ascii_of_string "0123456789abcdef".

Definition hex_of_byte (b : nat) : list ascii :=
  [nth (Nat.div b 16) hexdigits "0"%char;
   nth (Nat.modulo b 16) hexdigits "0"%char].

(** Modelled from the spec: [generate_random_string] of [acme.helper] (not
    among the sources), called by [Account.add] with length 12: a fresh
    random URL-safe name with 96 bits of entropy, that is 8 bits for each
    unit of [length]: the next [length] random bytes, written in
    hexadecimal. *)
Definition generate_random_string (length : nat) (w : World) : string * World :=
  (string_of_list_ascii
     (flat_map (fun i =>
                  hex_of_byte (Nat.modulo (entropy w (drawn w + i)%nat) 256))
               (seq 0 length)),
   {| dbstore := dbstore w; entropy := entropy w;
      drawn := (drawn w + length)%nat |}).

Arguments generate_random_string : simpl never.




(** ** acme/account.py: class [Account] *)

Module Account.

Section Service.

Context {H : Helper} {M : Message}.

(** [self.server_name], the base URL of the server. *)
Variable server_name : string.

(** [self.path_dic['acct_path']] *)
Definition acct_path : string := "/acme/acct/".

Definition malformed : string := "urn:ietf:params:acme:error:malformed".
Definition invalidContact : string := "urn:ietf:params:acme:error:invalidContact".
Definition accountDoesNotExist : string :=
  "urn:ietf:params:acme:error:accountDoesNotExist".
Definition userActionRequired : string :=
  "urn:ietf:params:acme:error:userActionRequired".

(** [Account.add]: prepare db insert and call DBstore helper. *)
Definition add (content : dict) (contact : json) (w : World)
  : res (status * World) :=
  let (account_name, w) := generate_random_string 12 w in
  if has_key "alg" content && has_key "jwk" content && truthy contact then
    alg <- getitem content "alg" ;;
    jwk <- getitem content "jwk" ;;
    let data_dic :=
      {| dd_name := account_name; dd_alg := alg;
         dd_jwk := jwk; dd_contact := contact |} in
    let '((db_name, new), db) := Store.account_add data_dic (dbstore w) in
    let w := set_dbstore w db in
    if new : bool
    then Ok ((201, Some account_name, None), w)
    else Ok ((200, Some db_name, None), w)
  else
    Ok ((400, Some malformed, Some "incomplete protectedpayload"), w).

(** [Account.contact_check]: check contact information from payload. *)
Definition contact_check (content : dict) : res status :=
  if has_key "contact" content then
    contact <- getitem content "contact" ;;
    if negb (validate_email contact) then
      detail <- py_join ", " contact ;;
      Ok (400, Some invalidContact, Some detail)
    else
      Ok (200, None, None)
  else
    Ok (400, Some invalidContact, Some "no contacts specified").

(** [Account.delete]: delete account. *)
Definition delete (aname : option string) (w : World) : status * World :=
  let (result, db) := Store.account_delete aname (dbstore w) in
  let w := set_dbstore w db in
  if result : bool
  then ((200, None, None), w)
  else ((400, Some accountDoesNotExist, Some "deletion failed"), w).

(** [Account.onlyreturnexisting]: check onlyreturnexisting. *)
Definition onlyreturnexisting (protected payload : dict) (db : DBstore)
  : res status :=
  flag <- getitem payload "onlyreturnexisting" ;;
  if truthy flag then
    if has_key "jwk" protected then
      jwk <- getitem protected "jwk" ;;
      has_n <- py_in "n" jwk ;;
      if has_n : bool then
        n <- py_getitem jwk "n" ;;
        match Store.account_lookup "modulus" n db with
        | Some result => Ok (200, Some (row_name result), None)
        | None => Ok (400, Some accountDoesNotExist, None)
        end
      else
        Ok (400, Some malformed, Some "n value missing")
    else
      Ok (400, Some malformed, Some "jwk structure missing")
  else
    Ok (400, Some userActionRequired, Some "onlyReturnExisting must be true").

(** [Account.tos_check]: check terms of service. *)
Definition tos_check (content : dict) : res status :=
  if has_key "termsofserviceagreed" content then
    agreed <- getitem content "termsofserviceagreed" ;;
    if truthy agreed
    then Ok (200, None, None)
    else Ok (403, Some userActionRequired, Some "tosfalse")
  else
    Ok (403, Some userActionRequired, Some "tosfalse").

(** The location of an account and of its orders, as [Account.new]
    formats them. *)
Definition location (message : option string) : string :=
  server_name ++ acct_path ++ format_opt message.

Definition orders_url (message : option string) : string :=
  server_name ++ acct_path ++ format_opt message ++ "/orders".

(** [Account.new]: generate a new account. *)
Definition new (content : string) (w : World) : res (response * World) :=
  let '(code, message, detail, protected, payload, _account_name) :=
    check content true (dbstore w) in
  '(code, message, detail, w) <-
    (if code =? 200 then
       if has_key "onlyreturnexisting" payload then
         '(code, message, detail) <-
           onlyreturnexisting protected payload (dbstore w) ;;
         Ok (code, message, detail, w)
       else
         '(code, message, detail) <- tos_check payload ;;
         '(code, message, detail) <-
           (if code =? 200 then contact_check payload
            else Ok (code, message, detail)) ;;
         if code =? 200 then
           contact <- getitem payload "contact" ;;
           '(code, message, detail, w) <- add protected contact w ;;
           Ok (code, message, detail, w)
         else Ok (code, message, detail, w)
     else Ok (code, message, detail, w)) ;;
  if (code =? 200) || (code =? 201) then
    data <-
      (if code =? 201 then
         contact <- getitem payload "contact" ;;
         Ok (JDict [("status", JStr "valid");
                    ("contact", contact);
                    ("orders", JStr (orders_url message))])
       else Ok (JDict [])) ;;
    let response_dic :=
      {| r_code := None;
         r_header := Some [("Location", location message)];
         r_data := Some data |} in
    Ok (prepare_response response_dic (code, message, detail), w)
  else
    let detail :=
      match detail with
      | Some d =>
          if String.eqb d "tosfalse"
          then Some "Terms of service must be accepted"
          else detail
      | None => detail
      end in
    Ok (prepare_response empty_response (code, message, detail), w).

(** [Account.parse]: parse message. *)
Definition parse (content : string) (w : World) : res (response * World) :=
  let '(code, message, detail, _protected, payload, account_name) :=
    check content false (dbstore w) in
  '(code, message, detail, response_dic, w) <-
    (if code =? 200 then
       if has_key "status" payload then
         st <- getitem payload "status" ;;
         low <- py_lower st ;;
         if String.eqb low "deactivated" then
           let '((code, message, detail), w) := delete account_name w in
           if code =? 200 then
             Ok (code, message, detail,
                 {| r_code := None; r_header := None;
                    r_data := Some (JDict payload) |}, w)
           else Ok (code, message, detail, empty_response, w)
         else
           Ok (400, Some malformed, Some "status attribute without sense",
               empty_response, w)
       else
         Ok (400, Some malformed,
             Some "dont know what to do with this request",
             empty_response, w)
     else Ok (code, message, detail, empty_response, w)) ;;
  Ok (prepare_response response_dic (code, message, detail), w).

(** *** The responses [new] and [parse] build, named for the statements *)

(** The response to a status triple that is an error: no header, no data. *)
Definition error_response (code : Z) (urn : string) (detail : option string)
  : response :=
  prepare_response empty_response (code, Some urn, detail).

(** The response of [new] with code 201 for the account [name]. *)
Definition created_response (name : string) (contact : json) : response :=
  prepare_response
    {| r_code := None;
       r_header := Some [("Location", server_name ++ "/acme/acct/" ++ name)];
       r_data :=
         Some (JDict [("status", JStr "valid");
                      ("contact", contact);
                      ("orders",
                       JStr (server_name ++ "/acme/acct/" ++ name ++ "/orders"))])
    |}
    (201, Some name, None).

(** The response of [new] with code 200 for the account [name]. *)
Definition existing_response (name : string) : response :=
  prepare_response
    {| r_code := None;
       r_header := Some [("Location", server_name ++ "/acme/acct/" ++ name)];
       r_data := Some (JDict []) |}
    (200, Some name, None).


(** The payload agrees to the terms of service. *)
Definition agreed (payload : dict) : bool :=
  match lookup "termsofserviceagreed" payload with
  | Some v => truthy v
  | None => false
  end.

End Service.

End Account.

(** ** examples/acme2certifier_wsgi.py: the WSGI dispatcher *)

Module Wsgi.

(** The entries of the WSGI environment the dispatcher reads.
    [CONTENT_LENGTH] is [None] when the entry is absent, [Some None] when
    [int] raises [ValueError] on it, and [Some (Some n)] when it reads [n]. *)
Record environ : Type := {
  REQUEST_METHOD : string;
  PATH_INFO : option string;
  CONTENT_LENGTH : option (option Z);
  wsgi_input : string
}.

(** One element of the iterable a handler returns. *)
Inductive chunk : Type :=
| Dumps (data : json)     (* json.dumps(data).encode('utf-8') *)
| Encoded (text : string) (* data.encode('utf-8') *)
| Raw (data : json).      (* data, as it is *)

(** What a handler does: the call of [start_response] and the body. *)
Record reply : Type := {
  status_line : string;
  headers : list (string * string);
  body : list chunk
}.

(** The services behind the dispatcher ([acme_srv.*], [helper], [CONFIG]),
    each as the function from its arguments to the [response_dic] it
    returns; the first argument is the server name from [get_url]. *)
Class Services : Type := {
  url_prefix : option string;
  get_url : environ -> bool -> string;
  account_new : string -> string -> res response;
  account_parse : string -> string -> res response;
  authorization_new_post : string -> string -> res response;
  authorization_new_get : string -> string -> res response;
  certificate_new_post : string -> string -> res response;
  certificate_new_get : string -> string -> res response;
  certificate_revoke : string -> string -> res response;
  challenge_parse : string -> string -> res response;
  challenge_get : string -> string -> res response;
  directory_get : string -> json;
  nonce_generate_and_add : string;
  order_new : string -> string -> res response;
  order_parse : string -> string -> res response;
  trigger_parse : string -> string -> res response
}.

Definition HTTP_CODE_DIC : list (Z * string) :=
  [ (200, "Created");
    (201, "OK");
    (400, "Bad Request");
    (401, "Unauthorized");
    (403, "Forbidden");
    (404, "Not Found");
    (405, "Method Not Allowed");
    (500, "serverInternal ") ].

(** [HTTP_CODE_DIC[code]] *)
Fixpoint code_lookup (code : Z) (table : list (Z * string)) : res string :=
  match table with
  | [] => Raise KeyError
  | (c, phrase) :: rest => if code =? c then Ok phrase else code_lookup code rest
  end.

(** [response_dic[key]] for the three entries. *)
Definition entry {A : Type} (field : option A) : res A :=
  match field with
  | Some v => Ok v
  | None => Raise KeyError
  end.

(** [create_header] *)
Definition create_header (response_dic : response) (add_json_header : bool)
  : res (list (string * string)) :=
  let headers :=
    if add_json_header then [("Content-Type", "application/json")] else [] in
  items <- entry (r_header response_dic) ;;
  Ok (headers ++ items)%list.

(** [file.read(size)]: everything when [size] is negative, at most [size]
    bytes otherwise.  (A size of [2^63] or more, which the real [read]
    refuses with [OverflowError], is not told apart from the others.) *)
Definition read (input : string) (size : Z) : string :=
  if size <? 0 then input else substring 0 (Z.to_nat size) input.

(** [get_request_body] *)
Definition get_request_body (env : environ) : string :=
  let request_body_size :=
    match CONTENT_LENGTH env with
    | None => 0
    | Some None => 0
    | Some (Some n) => n
    end in
  read (wsgi_input env) request_body_size.

(** ['{0} {1}'.format(response_dic['code'], HTTP_CODE_DIC[response_dic['code']])] *)
Definition status_of (response_dic : response) : res string :=
  code <- entry (r_code response_dic) ;;
  phrase <- code_lookup code HTTP_CODE_DIC ;;
  Ok (str_of_Z code ++ " " ++ phrase).

(** The answer every guarded handler gives to a wrong request method. *)
Definition method_not_allowed (expected : string) : res reply :=
  phrase <- code_lookup 405 HTTP_CODE_DIC ;;
  Ok {| status_line := "405 " ++ phrase;
        headers := [("Content-Type", "application/json")];
        body := [Dumps (JDict [("status", JNum 405);
                               ("message", JStr phrase);
                               ("detail", JStr expected)])] |}.

Definition expected_post : string := "Wrong request type. Expected POST.".

Section Handlers.

Context {S : Services}.

(** The calls of [logger_info] are not modelled.  They come after
    [start_response] and read [environ['REMOTE_ADDR']] and
    [environ['PATH_INFO']]: on an environment without one of them a handler
    that logs ([acct], [newnonce] and [not_found] do not) raises [KeyError]
    there. *)

(** The tail shared by the handlers: header, status line, JSON body. *)
Definition json_reply (response_dic : response) : res reply :=
  headers <- create_header response_dic true ;;
  line <- status_of response_dic ;;
  data <- entry (r_data response_dic) ;;
  Ok {| status_line := line; headers := headers; body := [Dumps data] |}.

(** The same, for the handlers that send a body only when there is one. *)
Definition json_reply_if_data (response_dic : response) : res reply :=
  headers <- create_header response_dic true ;;
  line <- status_of response_dic ;;
  Ok {| status_line := line; headers := headers;
        body := match r_data response_dic with
                | Some data => [Dumps data]
                | None => []
                end |}.

(** [acct]: account handling. *)
Definition acct (env : environ) : res reply :=
  let request_body := get_request_body env in
  response_dic <- account_parse (get_url env false) request_body ;;
  json_reply response_dic.

(** [authz]: authorization handling. *)
Definition authz (env : environ) : res reply :=
  if String.eqb (REQUEST_METHOD env) "POST"
     || String.eqb (REQUEST_METHOD env) "GET" then
    response_dic <-
      (if String.eqb (REQUEST_METHOD env) "POST" then
         authorization_new_post (get_url env false) (get_request_body env)
       else
         authorization_new_get (get_url env false) (get_url env true)) ;;
    let headers :=
      ([("Content-Type", "application/json")] ++
       match r_header response_dic with
       | Some items => items
       | None => []
       end)%list in
    line <- status_of response_dic ;;
    data <- entry (r_data response_dic) ;;
    Ok {| status_line := line; headers := headers; body := [Dumps data] |}
  else method_not_allowed expected_post.

(** [newaccount]: create new account. *)
Definition newaccount (env : environ) : res reply :=
  if String.eqb (REQUEST_METHOD env) "POST" then
    let request_body := get_request_body env in
    response_dic <- account_new (get_url env false) request_body ;;
    json_reply response_dic
  else method_not_allowed expected_post.

(** [directory]: directory listing. *)
Definition directory (env : environ) : res reply :=
  Ok {| status_line := "200 OK";
        headers := [("Content-Type", "application/json")];
        body := [Dumps (directory_get (get_url env false))] |}.

(** [cert] *)
Definition cert (env : environ) : res reply :=
  if String.eqb (REQUEST_METHOD env) "POST" then
    response_dic <-
      certificate_new_post (get_url env false) (get_request_body env) ;;
    headers <- create_header response_dic false ;;
    line <- status_of response_dic ;;
    data <- entry (r_data response_dic) ;;
    match data with
    | JStr text =>
        Ok {| status_line := line; headers := headers;
              body := [Encoded text] |}
    | _ => Raise AttributeError
    end
  else if String.eqb (REQUEST_METHOD env) "GET" then
    response_dic <-
      certificate_new_get (get_url env false) (get_url env true) ;;
    headers <- create_header response_dic true ;;
    line <- status_of response_dic ;;
    data <- entry (r_data response_dic) ;;
    Ok {| status_line := line; headers := headers; body := [Raw data] |}
  else method_not_allowed expected_post.

(** [chall] *)
Definition chall (env : environ) : res reply :=
  if String.eqb (REQUEST_METHOD env) "POST" then
    response_dic <- challenge_parse (get_url env false) (get_request_body env) ;;
    json_reply response_dic
  else if String.eqb (REQUEST_METHOD env) "GET" then
    response_dic <- challenge_get (get_url env false) (get_url env true) ;;
    line <- status_of response_dic ;;
    data <- entry (r_data response_dic) ;;
    Ok {| status_line := line;
          headers := [("Content-Type", "application/json")];
          body := [Dumps data] |}
  else method_not_allowed expected_post.

(** [newnonce]: generate a new nonce. *)
Definition newnonce (env : environ) : res reply :=
  if String.eqb (REQUEST_METHOD env) "HEAD"
     || String.eqb (REQUEST_METHOD env) "GET" then
    Ok {| status_line :=
            if String.eqb (REQUEST_METHOD env) "HEAD"
            then "200 OK" else "204 No content";
          headers := [("Content-Type", "text/plain");
                      ("Replay-Nonce", nonce_generate_and_add)];
          body := [] |}
  else method_not_allowed "Wrong request type. Expected HEAD or GET.".

(** [neworders]: generate a new order. *)
Definition neworders (env : environ) : res reply :=
  if String.eqb (REQUEST_METHOD env) "POST" then
    response_dic <- order_new (get_url env false) (get_request_body env) ;;
    json_reply response_dic
  else method_not_allowed expected_post.

(** [order]: order handler. *)
Definition order (env : environ) : res reply :=
  if String.eqb (REQUEST_METHOD env) "POST" then
    response_dic <- order_parse (get_url env false) (get_request_body env) ;;
    json_reply response_dic
  else method_not_allowed expected_post.

(** [revokecert]: revocation handler. *)
Definition revokecert (env : environ) : res reply :=
  if String.eqb (REQUEST_METHOD env) "POST" then
    response_dic <-
      certificate_revoke (get_url env false) (get_request_body env) ;;
    json_reply_if_data response_dic
  else method_not_allowed expected_post.

(** [trigger]: ca trigger handler. *)
Definition trigger (env : environ) : res reply :=
  if String.eqb (REQUEST_METHOD env) "POST" then
    response_dic <- trigger_parse (get_url env false) (get_request_body env) ;;
    json_reply_if_data response_dic
  else method_not_allowed expected_post.

(** [not_found]: called if no URL matches. *)
Definition not_found (_environ : environ) : res reply :=
  phrase <- code_lookup 404 HTTP_CODE_DIC ;;
  Ok {| status_line := "404 NOT FOUND";
        headers := [("Content-Type", "text/plain")];
        body := [Dumps (JDict [("status", JNum 404);
                               ("message", JStr phrase);
                               ("detail", JStr "Not Found")])] |}.

(** The patterns of [URLS].  All of them start with [^], so a pattern is
    the list of what follows the anchor: a literal character, an optional
    character ([c?]) or the end anchor [$], which holds at the end of the
    string and before a newline that ends it. *)
Inductive atom : Type :=
| Chr (c : ascii)
| Opt (c : ascii)
| Eol.

Definition regex : Type := list atom.

Definition lit (s : string) : regex := map Chr (list_ascii_of_string s).

Definition at_end (s : string) : bool :=
  String.eqb s "" || String.eqb s (String "010"%char "").

(** [re.search(regex, path) is not None] for an anchored pattern. *)
Fixpoint search (r : regex) (s : string) : bool :=
  match r with
  | [] => true
  | Chr c :: r' =>
      match s with
      | String c' s' => Ascii.eqb c c' && search r' s'
      | EmptyString => false
      end
  | Opt c :: r' =>
      match s with
      | String c' s' => Ascii.eqb c c' && search r' s'
      | EmptyString => false
      end || search r' s
  | Eol :: r' => at_end s && search r' s
  end.

(** [URLS]: map urls to functions. *)
Definition URLS : list (regex * (environ -> res reply)) :=
  [ ([Eol], directory);
    (lit "acme/acct", acct);
    (lit "acme/authz", authz);
    (lit "acme/cert", cert);
    (lit "acme/chall", chall);
    (lit "acme/key-change", acct);
    (lit "acme/newaccount" ++ [Eol], newaccount);
    (lit "acme/newnonce" ++ [Eol], newnonce);
    (lit "acme/neworders" ++ [Eol], neworders);
    (lit "acme/order", order);
    (lit "acme/revokecert", revokecert);
    (lit "director" ++ [Opt "y"%char; Eol], directory);
    (lit "trigger", trigger) ]%list.

(** [str.lstrip(chars)]: drop the leading characters that occur in [chars]. *)
Fixpoint lstrip (chars : string) (s : string) : string :=
  match s with
  | EmptyString => EmptyString
  | String c s' =>
      if existsb (Ascii.eqb c) (list_ascii_of_string chars)
      then lstrip chars s' else s
  end.

(** The path the patterns are tried on. *)
Definition path_of (env : environ) : string :=
  let prefix :=
    match url_prefix with
    | Some p => p ++ "/"
    | None => "/"
    end in
  lstrip prefix
    match PATH_INFO env with
    | Some p => p
    | None => ""
    end.

Fixpoint route (urls : list (regex * (environ -> res reply))) (path : string)
  : option (environ -> res reply) :=
  match urls with
  | [] => None
  | (r, callback) :: rest =>
      if search r path then Some callback else route rest path
  end.

(** [application]: the main WSGI application; if nothing matches call the
    [not_found] function. *)
Definition application (env : environ) : res reply :=
  match route URLS (path_of env) with
  | Some callback => callback env
  | None => not_found env
  end.

End Handlers.

End Wsgi.

(** ** Concrete collaborators and requests, for the examples *)

Module Example.

(** Modelled from the spec: [validate_email] of [acme.helper] (not among the
    sources): at least one contact, each a [mailto:] URI with an address. *)
Definition mailto (v : json) : bool :=
  match v with
  | JStr s => String.prefix "mailto:" s && contains "@" s
  | _ => false
  end.

Definition valid_contacts (contact : json) : bool :=
  match contact with
  | JList (c :: l) => forallb mailto (c :: l)
  | _ => false
  end.

Definition helper : Helper :=
  {| validate_email := valid_contacts |}.

(** Modelled from the spec: [Message.prepare_response] of [acme.message]
    (not among the sources): the code of the status triple becomes the code
    of the response; an error response is a problem document with [type]
    and [detail]; a success keeps the header and the data it was given.  The
    [Replay-Nonce] header is left out, the nonce pool not being modelled. *)
Definition problem_response (response_dic : response) (status_dic : status)
  : response :=
  let '(code, message, detail) := status_dic in
  {| r_code := Some code;
     r_header :=
       Some match r_header response_dic with
            | Some h => h
            | None => []
            end;
     r_data :=
       if 400 <=? code then
         Some (JDict [("type", JStr (format_opt message));
                      ("detail", JStr (format_opt detail))])
       else r_data response_dic |}.

(** An envelope verifier that answers [r] to the request at hand. *)
Definition verified (r : check_result) : Message :=
  {| check := fun _ _ _ => r; prepare_response := problem_response |}.

Definition rsa_key : json :=
  JDict [("kty", JStr "RSA"); ("n", JStr "0vx7agoebGcQSuu"); ("e", JStr "AQAB")].

Definition ec_key : json :=
  JDict [("kty", JStr "EC"); ("crv", JStr "P-256");
         ("x", JStr "f83OJ3D2xF1Bg8vub9tLe1gHMzV76e8Tus9uPHvRVEU");
         ("y", JStr "x_FEzRu9m36HLN_tue659LNpXW6pCyStikYjKIWI5a0")].

Definition protected_of (key : json) : dict :=
  [("alg", JStr "RS256"); ("jwk", key); ("nonce", JStr "N1");
   ("url", JStr "https://acme.example/acme/newaccount")].

Definition contact : json := JList [JStr "mailto:a@example.org"].

Definition registration : dict :=
  [("termsofserviceagreed", JBool true); ("contact", contact)].

Definition alice : account_row :=
  {| row_name := "kP3dZ0aTq1Lx"; row_alg := JStr "RS256";
     row_jwk := rsa_key; row_contact := contact; row_status := "valid" |}.

Definition world (db : DBstore) : World :=
  {| dbstore := db; entropy := fun i => (7 * i + 3)%nat; drawn := 0%nat |}.

Definition server : string := "https://acme.example".

(** The name the next new account gets in a world without draws so far. *)
Definition fresh_name : string :=
  fst (generate_random_string 12 (world [])).

(** What the envelope verifier returns for a newAccount request with the
    given embedded key and payload. *)
Definition newaccount_request (key : json) (payload : dict) : check_result :=
  (200, None, None, protected_of key, payload, None).

Definition lookup_only (flag : bool) : dict :=
  [("onlyreturnexisting", JBool flag)].

(** What it returns for a request signed by the account [name] that posts
    the status [st] to the account URL. *)
Definition status_request (name st : string) : check_result :=
  (200, None, None,
   [("alg", JStr "RS256"); ("kid", JStr (server ++ "/acme/acct/" ++ name));
    ("nonce", JStr "N2"); ("url", JStr (server ++ "/acme/acct/" ++ name))],
   [("status", JStr st)], Some name).

(** The services behind the dispatcher: the account service at a state,
    and answers without content for the others. *)
Definition answer (r : res (response * World)) : res response :=
  match r with
  | Ok (response_dic, _) => Ok response_dic
  | Raise e => Raise e
  end.

Definition services (M : Message) (w : World) : Wsgi.Services :=
  {| Wsgi.url_prefix := None;
     Wsgi.get_url := fun _ _ => server;
     Wsgi.account_new :=
       fun srv body => answer (Account.new (H := helper) (M := M) srv body w);
     Wsgi.account_parse :=
       fun _ body => answer (Account.parse (M := M) body w);
     Wsgi.authorization_new_post := fun _ _ => Ok empty_response;
     Wsgi.authorization_new_get := fun _ _ => Ok empty_response;
     Wsgi.certificate_new_post := fun _ _ => Ok empty_response;
     Wsgi.certificate_new_get := fun _ _ => Ok empty_response;
     Wsgi.certificate_revoke := fun _ _ => Ok empty_response;
     Wsgi.challenge_parse := fun _ _ => Ok empty_response;
     Wsgi.challenge_get := fun _ _ => Ok empty_response;
     Wsgi.directory_get := fun _ => JDict [];
     Wsgi.nonce_generate_and_add := "N3";
     Wsgi.order_new := fun _ _ => Ok empty_response;
     Wsgi.order_parse := fun _ _ => Ok empty_response;
     Wsgi.trigger_parse := fun _ _ => Ok empty_response |}.

Definition request (method path : string) : Wsgi.environ :=
  {| Wsgi.REQUEST_METHOD := method; Wsgi.PATH_INFO := Some path;
     Wsgi.CONTENT_LENGTH := None; Wsgi.wsgi_input := "" |}.

(** Services that all answer [r], behind a dispatcher configured with the
    URL prefix [prefix]. *)
Definition answering (prefix : option string) (r : response) : Wsgi.Services :=
  {| Wsgi.url_prefix := prefix;
     Wsgi.get_url := fun _ _ => server;
     Wsgi.account_new := fun _ _ => Ok r;
     Wsgi.account_parse := fun _ _ => Ok r;
     Wsgi.authorization_new_post := fun _ _ => Ok r;
     Wsgi.authorization_new_get := fun _ _ => Ok r;
     Wsgi.certificate_new_post := fun _ _ => Ok r;
     Wsgi.certificate_new_get := fun _ _ => Ok r;
     Wsgi.certificate_revoke := fun _ _ => Ok r;
     Wsgi.challenge_parse := fun _ _ => Ok r;
     Wsgi.challenge_get := fun _ _ => Ok r;
     Wsgi.directory_get := fun _ => JDict [];
     Wsgi.nonce_generate_and_add := "N3";
     Wsgi.order_new := fun _ _ => Ok r;
     Wsgi.order_parse := fun _ _ => Ok r;
     Wsgi.trigger_parse := fun _ _ => Ok r |}.

(** A request with a body. *)
Definition upload (method path : string) (size : Z) (input : string)
  : Wsgi.environ :=
  {| Wsgi.REQUEST_METHOD := method; Wsgi.PATH_INFO := Some path;
     Wsgi.CONTENT_LENGTH := Some (Some size); Wsgi.wsgi_input := input |}.

(** What the envelope verifier returns for a request it refuses. *)
Definition refused (code : Z) (urn detail : string) : check_result :=
  (code, Some urn, Some detail, [], [], None).

(** The row [Account.add] stores for a first registration with [rsa_key]. *)
Definition first_row : account_row :=
  {| row_name := fresh_name; row_alg := JStr "RS256";
     row_jwk := rsa_key; row_contact := contact; row_status := "valid" |}.

End Example.

(** * Properties *)

(** ** Facts about the Python values *)

Section PyFacts.

Lemma json_eqb_eq : forall x y : json, json_eqb x y = true <-> x = y.
Proof.
  fix IH 1.
  intros x y; destruct x as [ | a | a | a | l | d ];
    destruct y as [ | b | b | b | l' | d' ]; simpl;
    try (split; [ discriminate | discriminate ]);
    try (split; reflexivity).
  - rewrite Bool.eqb_true_iff. split; congruence.
  - rewrite Z.eqb_eq. split; congruence.
  - rewrite String.eqb_eq. split; congruence.
  - revert l'. induction l as [ | v r IHr ]; intros [ | v' r' ];
      try (split; [ discriminate | discriminate ]);
      try (split; reflexivity).
    rewrite andb_true_iff, IH. rewrite IHr.
    split; [ intros [-> E]; congruence | intros E; inversion E; subst; auto ].
  - revert d'. induction d as [ | [k v] r IHr ]; intros [ | [k' v'] r' ];
      try (split; [ discriminate | discriminate ]);
      try (split; reflexivity).
    rewrite !andb_true_iff, IH, String.eqb_eq. rewrite IHr.
    split; [ intros [[-> ->] E]; congruence | intros E; inversion E; subst; auto ].
Qed.

Lemma json_eqb_refl (x : json) : json_eqb x x = true.
Proof. now apply json_eqb_eq. Qed.

Lemma has_key_lookup (k : string) (d : dict) (v : json) :
  lookup k d = Some v -> has_key k d = true.
Proof. unfold has_key. now intros ->. Qed.

Lemma has_key_false (k : string) (d : dict) :
  has_key k d = false <-> lookup k d = None.
Proof.
  unfold has_key. destruct (lookup k d); split; congruence.
Qed.

Lemma getitem_lookup (k : string) (d : dict) (v : json) :
  lookup k d = Some v -> getitem d k = Ok v.
Proof. unfold getitem. now intros ->. Qed.

End PyFacts.

(** ** Facts about the account table *)

Section StoreFacts.

Lemma find_none_iff {A : Type} (f : A -> bool) (l : list A) :
  find f l = None <-> forall x, In x l -> f x = false.
Proof.
  split.
  - apply find_none.
  - induction l as [ | a l IH ]; simpl; intros Hall; [ reflexivity | ].
    rewrite (Hall a (or_introl eq_refl)). apply IH.
    intros x Hx. apply Hall. now right.
Qed.

(** A key is new to the table exactly when the lookup on the [jwk] column
    finds nothing. *)
Lemma lookup_jwk_none (jwk : json) (db : DBstore) :
  Store.account_lookup "jwk" jwk db = None <->
  forall r, In r db -> row_jwk r <> jwk.
Proof.
  unfold Store.account_lookup. rewrite find_none_iff.
  split; intros Hall r Hr; specialize (Hall r Hr);
    unfold Store.column_is in *; simpl in *.
  - intros E. rewrite E, json_eqb_refl in Hall. discriminate.
  - destruct (json_eqb (row_jwk r) jwk) eqn:E; [ | reflexivity ].
    apply json_eqb_eq in E. contradiction.
Qed.

Lemma lookup_jwk_some (jwk : json) (db : DBstore) (r : account_row) :
  Store.account_lookup "jwk" jwk db = Some r -> In r db /\ row_jwk r = jwk.
Proof.
  unfold Store.account_lookup. intros Hfind.
  apply find_some in Hfind. destruct Hfind as [Hin Hcol].
  split; [ assumption | ].
  unfold Store.column_is in Hcol; simpl in Hcol. now apply json_eqb_eq.
Qed.

Lemma lookup_jwk_known (jwk : json) (db : DBstore) (r0 : account_row) :
  In r0 db -> row_jwk r0 = jwk ->
  exists r, Store.account_lookup "jwk" jwk db = Some r.
Proof.
  intros Hin Hkey.
  destruct (Store.account_lookup "jwk" jwk db) as [ r | ] eqn:E.
  - now exists r.
  - rewrite lookup_jwk_none in E. now elim (E r0 Hin).
Qed.




(** Rows that do not have the name are left as they are. *)
Lemma deactivate_other (aname : option string) (db : DBstore) :
  (forall r, In r db -> Store.named aname r = false) ->
  map (Store.deactivate aname) db = db.
Proof.
  induction db as [ | r db IH ]; simpl; intros Hall; [ reflexivity | ].
  unfold Store.deactivate at 1. rewrite (Hall r (or_introl eq_refl)).
  f_equal. apply IH. intros x Hx. apply Hall. now right.
Qed.


End StoreFacts.

(** ** The definitions on small inputs *)

Section Checks.

Example lower_mixed_case : lower "DeActivated" = "deactivated".
Proof. reflexivity. Qed.

Example truthy_empty_list : truthy (JList []) = false.
Proof. reflexivity. Qed.

Example join_two_contacts :
  py_join ", " (JList [JStr "mailto:a@example.org"; JStr "mailto:b@example.org"])
  = Ok "mailto:a@example.org, mailto:b@example.org".
Proof. reflexivity. Qed.

Example join_number_raises : py_join ", " (JList [JNum 1]) = Raise TypeError.
Proof. reflexivity. Qed.

Example str_of_405 : str_of_Z 405 = "405".
Proof. reflexivity. Qed.

Example fresh_name_value :
  Example.fresh_name = "030a11181f262d343b424950".
Proof. reflexivity. Qed.

Example lstrip_slashes : Wsgi.lstrip "/" "//acme/acct/x" = "acme/acct/x".
Proof. reflexivity. Qed.

Example search_anchored_end :
  Wsgi.search (Wsgi.lit "acme/newaccount" ++ [Wsgi.Eol])%list "acme/newaccount"
  = true /\
  Wsgi.search (Wsgi.lit "acme/newaccount" ++ [Wsgi.Eol])%list "acme/newaccounts"
  = false.
Proof. split; reflexivity. Qed.

Example search_optional_letter :
  Wsgi.search (Wsgi.lit "director" ++ [Wsgi.Opt "y"%char; Wsgi.Eol])%list
    "director" = true /\
  Wsgi.search (Wsgi.lit "director" ++ [Wsgi.Opt "y"%char; Wsgi.Eol])%list
    "directory" = true.
Proof. split; reflexivity. Qed.

Example newaccount_get_is_405 :
  Wsgi.application
    (S := Example.services
            (Example.verified
               (Example.newaccount_request Example.rsa_key Example.registration))
            (Example.world []))
    (Example.request "GET" "/acme/newaccount")
  = Wsgi.method_not_allowed Wsgi.expected_post.
Proof. reflexivity. Qed.

End Checks.

(** ** The account service *)

Section AccountFacts.

Context {H : Helper} {M : Message}.
Variable server_name : string.

Import Account.

Lemma tos_check_agreed (payload : dict) :
  tos_check payload =
  Ok (if agreed payload then (200, None, None)
      else (403, Some userActionRequired, Some "tosfalse")).
Proof.
  unfold tos_check, agreed, has_key, getitem.
  destruct (lookup "termsofserviceagreed" payload) as [ v | ]; simpl;
    [ destruct (truthy v) | ]; reflexivity.
Qed.

(** A refused terms-of-service check ends [new]: neither the contact check
    nor [add] is consulted. *)
Lemma new_tos_refused (content : string) (w : World)
      (m d : option string) (protected payload : dict) (an : option string) :
  check content true (dbstore w) = (200, m, d, protected, payload, an) ->
  has_key "onlyreturnexisting" payload = false ->
  agreed payload = false ->
  new server_name content w =
  Ok (error_response 403 userActionRequired
        (Some "Terms of service must be accepted"), w).
Proof.
  intros Hcheck Hore Htos. unfold new. rewrite Hcheck. simpl.
  rewrite Hore, tos_check_agreed, Htos. reflexivity.
Qed.

(** The verdict of the contact check on a payload without contacts or with
    a list of strings that [validate_email] refuses. *)
Lemma contact_check_rejects (payload : dict) :
  lookup "contact" payload = None \/
  (exists l ss, lookup "contact" payload = Some (JList l) /\
                all_strings l = Some ss /\
                validate_email (JList l) = false) ->
  exists detail,
    contact_check payload = Ok (400, Some invalidContact, Some detail).
Proof.
  unfold contact_check, has_key, getitem.
  intros [ -> | [l [ss [-> [Hss Hbad]]]] ]; simpl.
  - now eexists.
  - rewrite Hbad. simpl. rewrite Hss. simpl. now eexists.
Qed.

End AccountFacts.

Section AccountClaims.

Context {H : Helper} {M : Message}.
Variable server_name : string.

Import Account.

(** C5.  A newAccount request that passed the envelope verification and has
    no [onlyreturnexisting] entry, and whose payload lacks
    [termsofserviceagreed] or carries a false value for it, is answered with
    code 403, error [userActionRequired] and detail "Terms of service must
    be accepted"; the state, and so the account table, is returned as it
    was: no account is created. *)
Theorem new_requires_terms_of_service
        (content : string) (w : World) (m d : option string)
        (protected payload : dict) (an : option string) :
  check content true (dbstore w) = (200, m, d, protected, payload, an) ->
  has_key "onlyreturnexisting" payload = false ->
  (lookup "termsofserviceagreed" payload = None \/
   exists v, lookup "termsofserviceagreed" payload = Some v /\
             truthy v = false) ->
  new server_name content w =
  Ok (error_response 403 "urn:ietf:params:acme:error:userActionRequired"
        (Some "Terms of service must be accepted"), w).
Proof.
  intros Hcheck Hore Htos.
  apply (new_tos_refused server_name content w m d protected payload an);
    try assumption.
  unfold agreed. destruct Htos as [ -> | [v [-> Hv]] ]; auto.
Qed.

(** The contact check runs after the terms-of-service check, and only when
    that one passed.  A payload without [contact], or with a list of
    strings that fails the email validation, is then answered with code 400
    and error [invalidContact], and the state is returned as it was; when
    the terms were not agreed the same payload gets the answer of the
    terms-of-service check. *)
Lemma new_checks_contact_after_terms
        (content : string) (w : World) (m d : option string)
        (protected payload : dict) (an : option string) :
  check content true (dbstore w) = (200, m, d, protected, payload, an) ->
  has_key "onlyreturnexisting" payload = false ->
  (lookup "contact" payload = None \/
   exists l ss, lookup "contact" payload = Some (JList l) /\
                all_strings l = Some ss /\
                validate_email (JList l) = false) ->
  exists detail,
    new server_name content w =
    Ok (if agreed payload
        then error_response 400 "urn:ietf:params:acme:error:invalidContact"
               (Some detail)
        else error_response 403 "urn:ietf:params:acme:error:userActionRequired"
               (Some "Terms of service must be accepted"), w).
Proof.
  intros Hcheck Hore Hcontact.
  destruct (contact_check_rejects payload Hcontact) as [detail Hdetail].
  destruct (agreed payload) eqn:Htos.
  - exists (if String.eqb detail "tosfalse"
            then "Terms of service must be accepted" else detail).
    unfold new. rewrite Hcheck. simpl.
    rewrite Hore, tos_check_agreed, Htos. simpl.
    rewrite Hdetail. simpl.
    unfold error_response, invalidContact.
    destruct (String.eqb detail "tosfalse"); reflexivity.
  - exists "".
    apply (new_tos_refused server_name content w m d protected payload an);
      assumption.
Qed.

(** C10.  A newAccount request whose payload has the entry
    [onlyreturnexisting] with a false value is answered with code 400, error
    [userActionRequired] and detail "onlyReturnExisting must be true"; the
    registration path is not entered and the state is returned as it was. *)
Theorem new_onlyreturnexisting_false
        (content : string) (w : World) (m d : option string)
        (protected payload : dict) (an : option string) (flag : json) :
  check content true (dbstore w) = (200, m, d, protected, payload, an) ->
  lookup "onlyreturnexisting" payload = Some flag ->
  truthy flag = false ->
  new server_name content w =
  Ok (error_response 400 "urn:ietf:params:acme:error:userActionRequired"
        (Some "onlyReturnExisting must be true"), w).
Proof.
  intros Hcheck Hflag Hfalse. unfold new. rewrite Hcheck. simpl.
  rewrite (has_key_lookup _ _ _ Hflag).
  unfold onlyreturnexisting. rewrite (getitem_lookup _ _ _ Hflag). simpl.
  rewrite Hfalse. reflexivity.
Qed.

(** C2, as the code has it.  A newAccount request whose payload has the
    entry [onlyreturnexisting] with a true value is answered from the key
    embedded in the protected header, by its RSA modulus: without [jwk] the
    answer is 400 [malformed] ("jwk structure missing"), with a key object
    without [n] it is 400 [malformed] ("n value missing"); otherwise the
    account table is searched for the modulus [n], and the answer is code
    200 with the [Location] of the account found, or 400
    [accountDoesNotExist].  In every case the state is returned as it was:
    no account is created. *)
Theorem new_onlyreturnexisting_by_modulus
        (content : string) (w : World) (m d : option string)
        (protected payload : dict) (an : option string) (flag : json)
        (key : option dict) :
  check content true (dbstore w) = (200, m, d, protected, payload, an) ->
  lookup "onlyreturnexisting" payload = Some flag ->
  truthy flag = true ->
  lookup "jwk" protected = option_map JDict key ->
  new server_name content w =
  Ok (match key with
      | None =>
          error_response 400 "urn:ietf:params:acme:error:malformed"
            (Some "jwk structure missing")
      | Some jwk =>
          match lookup "n" jwk with
          | None =>
              error_response 400 "urn:ietf:params:acme:error:malformed"
                (Some "n value missing")
          | Some n =>
              match Store.account_lookup "modulus" n (dbstore w) with
              | Some r => existing_response server_name (row_name r)
              | None =>
                  error_response 400
                    "urn:ietf:params:acme:error:accountDoesNotExist" None
              end
          end
      end, w).
Proof.
  intros Hcheck Hflag Htrue Hkey. unfold new. rewrite Hcheck. simpl.
  rewrite (has_key_lookup _ _ _ Hflag).
  unfold onlyreturnexisting. rewrite (getitem_lookup _ _ _ Hflag). simpl.
  rewrite Htrue. unfold has_key, getitem. rewrite Hkey.
  destruct key as [ jwk | ]; simpl; [ | reflexivity ].
  unfold has_key, getitem.
  destruct (lookup "n" jwk) as [ n | ]; simpl; [ | reflexivity ].
  destruct (Store.account_lookup "modulus" n (dbstore w)); reflexivity.
Qed.

(** C1.  A newAccount request that passed the envelope verification (its
    protected header carries [alg] and the account key [jwk]), the
    terms-of-service check and the contact check (with a contact list that
    is not empty): when no account has the key, the answer has code 201, the
    header [Location] = server name, "/acme/acct/" and the new name, and the
    data [status] = "valid", and the account is stored under that name (as a
    valid account); when
    an account has the key, the answer has code 200 and the [Location] of
    that account's name, and the table is unchanged. *)
Theorem new_registers_or_returns_account
        (content : string) (w : World) (m d : option string)
        (protected payload : dict) (an : option string)
        (alg jwk contact : json) :
  check content true (dbstore w) = (200, m, d, protected, payload, an) ->
  has_key "onlyreturnexisting" payload = false ->
  lookup "alg" protected = Some alg ->
  lookup "jwk" protected = Some jwk ->
  agreed payload = true ->
  lookup "contact" payload = Some contact ->
  validate_email contact = true ->
  truthy contact = true ->
  let name := fst (generate_random_string 12 w) in
  ((forall r, In r (dbstore w) -> row_jwk r <> jwk) ->
   exists w',
     new server_name content w =
       Ok (created_response server_name name contact, w') /\
     dbstore w' =
       (dbstore w ++ [{| row_name := name; row_alg := alg;
                         row_jwk := jwk; row_contact := contact;
                         row_status := "valid" |}])%list)
  /\
  (forall r0, In r0 (dbstore w) -> row_jwk r0 = jwk ->
   exists r w',
     In r (dbstore w) /\ row_jwk r = jwk /\
     new server_name content w =
       Ok (existing_response server_name (row_name r), w') /\
     dbstore w' = dbstore w).
Proof.
  intros Hcheck Hore Halg Hjwk Htos Hcontact Hvalid Hfull name.
  assert (Hnew : new server_name content w =
                 '(code, message, detail, w') <- add protected contact w ;;
                 if (code =? 200) || (code =? 201) then
                   data <-
                     (if code =? 201 then
                        c <- getitem payload "contact" ;;
                        Ok (JDict [("status", JStr "valid");
                                   ("contact", c);
                                   ("orders",
                                    JStr (orders_url server_name message))])
                      else Ok (JDict [])) ;;
                   Ok (prepare_response
                         {| r_code := None;
                            r_header :=
                              Some [("Location", location server_name message)];
                            r_data := Some data |}
                         (code, message, detail), w')
                 else
                   Ok (prepare_response empty_response
                         (code, message,
                          match detail with
                          | Some d0 =>
                              if String.eqb d0 "tosfalse"
                              then Some "Terms of service must be accepted"
                              else detail
                          | None => detail
                          end), w')).
  { unfold new. rewrite Hcheck. simpl.
    rewrite Hore, tos_check_agreed, Htos. simpl.
    unfold contact_check. rewrite (has_key_lookup _ _ _ Hcontact).
    rewrite (getitem_lookup _ _ _ Hcontact). simpl.
    rewrite Hvalid. simpl.
    destruct (add protected contact w) as [ [[[c0 m0] d0] w0] | e ];
      reflexivity. }
  assert (Hadd : add protected contact w =
                 let w1 := snd (generate_random_string 12 w) in
                 match Store.account_lookup "jwk" jwk (dbstore w) with
                 | Some r => Ok ((200, Some (row_name r), None),
                                 set_dbstore w1 (dbstore w))
                 | None =>
                     Ok ((201, Some name, None),
                         set_dbstore w1
                           (dbstore w ++
                            [{| row_name := name; row_alg := alg;
                                row_jwk := jwk; row_contact := contact;
                                row_status := "valid" |}])%list)
                 end).
  { unfold add, name.
    destruct (generate_random_string 12 w) as [nm w1] eqn:G.
    assert (Hdb : dbstore w1 = dbstore w).
    { unfold generate_random_string in G. now inversion G. }
    rewrite (has_key_lookup _ _ _ Halg), (has_key_lookup _ _ _ Hjwk), Hfull.
    rewrite (getitem_lookup _ _ _ Halg), (getitem_lookup _ _ _ Hjwk).
    simpl. unfold Store.account_add. simpl. rewrite Hdb.
    destruct (Store.account_lookup "jwk" jwk (dbstore w)); reflexivity. }
  rewrite Hnew, Hadd. split.
  - intros Hfresh. apply lookup_jwk_none in Hfresh. rewrite Hfresh. simpl.
    unfold getitem. rewrite Hcontact. simpl.
    eexists. split; reflexivity.
  - intros r0 Hin Hsame.
    destruct (lookup_jwk_known jwk (dbstore w) r0 Hin Hsame) as [r Hr].
    destruct (lookup_jwk_some _ _ _ Hr) as [Hrin Hrkey].
    rewrite Hr. simpl. exists r. eexists.
    repeat split; try assumption; reflexivity.
Qed.

End AccountClaims.

Section ParseClaims.

Context {H : Helper} {M : Message}.
Variable server_name : string.

Import Account.


(** C7, as the code has it.  The status is compared without regard to
    case.  For a verified POST whose payload has no [status], or a string
    status whose lower-case form is not "deactivated", [parse] answers with
    code 400 and error [malformed] and returns the state as it was; and
    whenever [parse] returns a state that differs from the one it was
    given, the envelope was verified, the status reads "deactivated" and the
    new state is the one [delete] leaves. *)
Theorem parse_other_status_malformed
        (content : string) (w : World) (code : Z) (m d : option string)
        (protected payload : dict) (an : option string) :
  check content false (dbstore w) = (code, m, d, protected, payload, an) ->
  (code = 200 ->
   (lookup "status" payload = None \/
    exists s, lookup "status" payload = Some (JStr s) /\
              lower s <> "deactivated") ->
   exists detail,
     parse content w =
     Ok (error_response 400 "urn:ietf:params:acme:error:malformed"
           (Some detail), w))
  /\
  (forall resp w',
     parse content w = Ok (resp, w') -> w' <> w ->
     code = 200 /\
     (exists s, lookup "status" payload = Some (JStr s) /\
                lower s = "deactivated") /\
     w' = snd (delete an w)).
Proof.
  intros Hcheck. split.
  - intros -> Hstatus. unfold parse. rewrite Hcheck. simpl.
    destruct Hstatus as [ Hnone | [s [Hs Hlow]] ].
    + apply has_key_false in Hnone. rewrite Hnone. simpl. now eexists.
    + rewrite (has_key_lookup _ _ _ Hs), (getitem_lookup _ _ _ Hs). simpl.
      destruct (String.eqb (lower s) "deactivated") eqn:E.
      * apply String.eqb_eq in E. contradiction.
      * simpl. now eexists.
  - intros resp w' Hparse Hchanged. unfold parse in Hparse.
    rewrite Hcheck in Hparse. simpl in Hparse.
    destruct (code =? 200) eqn:Hcode;
      [ | simpl in Hparse; inversion Hparse; subst; contradiction ].
    apply Z.eqb_eq in Hcode.
    unfold has_key, getitem in Hparse.
    destruct (lookup "status" payload) as [ v | ] eqn:Hv;
      [ | simpl in Hparse; inversion Hparse; subst; contradiction ].
    destruct v as [ | b | n | s | l | o ]; simpl in Hparse;
      try discriminate.
    destruct (String.eqb (lower s) "deactivated") eqn:E;
      [ | simpl in Hparse; inversion Hparse; subst; contradiction ].
    apply String.eqb_eq in E.
    split; [ assumption | ]. split; [ now exists s | ].
    destruct (delete an w) as [[[c1 m1] d1] w1] eqn:Hdel.
    destruct (c1 =? 200); simpl in Hparse; inversion Hparse; reflexivity.
Qed.

End ParseClaims.

(** ** The names of accounts *)

Section Names.








End Names.

(** ** The dispatcher *)

Section DispatcherClaims.

Import Wsgi.

Lemma search_lit (p s : string) :
  search (lit p) s = true -> exists rest, s = p ++ rest.
Proof.
  revert s. induction p as [ | c p IH ]; intros s; simpl.
  - intros _. now exists s.
  - destruct s as [ | c' s' ]; [ discriminate | ].
    intros Hs. apply andb_true_iff in Hs. destruct Hs as [Hc Hrest].
    apply Ascii.eqb_eq in Hc. subst c'.
    destruct (IH s' Hrest) as [rest ->]. now exists rest.
Qed.

(** C8, on the code.  The table pairs 201 with "OK" and 200 with "Created",
    and the status line every handler formats from it reads "201 OK" and
    "200 Created": the reverse of what RFC 8555 prescribes and of the
    literal "200 OK" that [directory] and [newnonce] send. *)
Theorem status_line_pairing_inverted :
  code_lookup 201 HTTP_CODE_DIC = Ok "OK" /\
  code_lookup 200 HTTP_CODE_DIC = Ok "Created" /\
  (forall h d,
     status_of {| r_code := Some 201; r_header := h; r_data := d |}
     = Ok "201 OK") /\
  (forall h d,
     status_of {| r_code := Some 200; r_header := h; r_data := d |}
     = Ok "200 Created").
Proof. repeat split. Qed.

Context {S : Services}.

(** C9.  A request whose path matches [^acme/acct] or [^acme/key-change] is
    handled by [acct], which calls [Account.parse] on the request body and
    formats its answer whatever the request method is: no term of the
    result reads [REQUEST_METHOD].  The handlers [newaccount], [neworders],
    [order], [revokecert] and [trigger] answer 405 to every method but
    POST. *)
Theorem acct_has_no_method_guard (env : environ) :
  search (lit "acme/acct") (path_of env) = true \/
  search (lit "acme/key-change") (path_of env) = true ->
  application env =
    (response_dic <-
       account_parse (get_url env false) (get_request_body env) ;;
     json_reply response_dic) /\
  (forall other : environ,
     REQUEST_METHOD other <> "POST" ->
     newaccount other = method_not_allowed expected_post /\
     neworders other = method_not_allowed expected_post /\
     order other = method_not_allowed expected_post /\
     revokecert other = method_not_allowed expected_post /\
     trigger other = method_not_allowed expected_post).
Proof.
  intros Hpath. split.
  - unfold application.
    destruct Hpath as [ Hp | Hp ]; apply search_lit in Hp;
      destruct Hp as [rest ->]; reflexivity.
  - intros other Hmethod.
    unfold newaccount, neworders, order, revokecert, trigger.
    destruct (String.eqb (REQUEST_METHOD other) "POST") eqn:E.
    + apply String.eqb_eq in E. contradiction.
    + repeat split.
Qed.

End DispatcherClaims.

(** ** The statements at concrete requests *)

Section Instances.

Import Example.

(** A first registration is answered 201, a second one with the same key
    200, both with the [Location] of the one account. *)
Lemma new_registers_or_returns_account_witness :
  let M := verified (newaccount_request rsa_key registration) in
  (exists w',
     Account.new (H := helper) (M := M) server "" (world []) =
       Ok (Account.created_response (M := M) server fresh_name contact, w')) /\
  (exists r w',
     In r [alice] /\
     Account.new (H := helper) (M := M) server "" (world [alice]) =
       Ok (Account.existing_response (M := M) server (row_name r), w')).
Proof.
  intros M. split.
  - destruct (new_registers_or_returns_account
                (H := helper) (M := M) server "" (world []) None None
                (protected_of rsa_key) registration None
                (JStr "RS256") rsa_key contact
                eq_refl eq_refl eq_refl eq_refl eq_refl eq_refl eq_refl eq_refl)
      as [Hcreated _].
    destruct Hcreated as [w' [Hnew _]].
    + intros r [].
    + now exists w'.
  - destruct (new_registers_or_returns_account
                (H := helper) (M := M) server "" (world [alice]) None None
                (protected_of rsa_key) registration None
                (JStr "RS256") rsa_key contact
                eq_refl eq_refl eq_refl eq_refl eq_refl eq_refl eq_refl eq_refl)
      as [_ Hexisting].
    destruct (Hexisting alice (or_introl eq_refl) eq_refl)
      as [r [w' [Hin [_ [Hnew _]]]]].
    now exists r, w'.
Defined.

Lemma new_requires_terms_of_service_witness :
  let M := verified (newaccount_request rsa_key [("contact", contact)]) in
  Account.new (H := helper) (M := M) server "" (world []) =
  Ok (Account.error_response (M := M) 403
        "urn:ietf:params:acme:error:userActionRequired"
        (Some "Terms of service must be accepted"), world []).
Proof.
  intros M.
  apply (new_requires_terms_of_service
           (H := helper) (M := M) server "" (world []) None None
           (protected_of rsa_key) [("contact", contact)] None).
  - reflexivity.
  - reflexivity.
  - left. reflexivity.
Defined.

Lemma new_checks_contact_after_terms_witness :
  let payload :=
    [("termsofserviceagreed", JBool true); ("contact", JList [JStr "nobody"])] in
  let M := verified (newaccount_request rsa_key payload) in
  exists detail,
    Account.new (H := helper) (M := M) server "" (world []) =
    Ok (Account.error_response (M := M) 400
          "urn:ietf:params:acme:error:invalidContact" (Some detail), world []).
Proof.
  intros payload M.
  apply (new_checks_contact_after_terms
           (H := helper) (M := M) server "" (world []) None None
           (protected_of rsa_key) payload None).
  - reflexivity.
  - reflexivity.
  - right. exists [JStr "nobody"], ["nobody"]. repeat split.
Defined.

Lemma new_onlyreturnexisting_false_witness :
  let M := verified (newaccount_request rsa_key (lookup_only false)) in
  Account.new (H := helper) (M := M) server "" (world [alice]) =
  Ok (Account.error_response (M := M) 400
        "urn:ietf:params:acme:error:userActionRequired"
        (Some "onlyReturnExisting must be true"), world [alice]).
Proof.
  intros M.
  apply (new_onlyreturnexisting_false
           (H := helper) (M := M) server "" (world [alice]) None None
           (protected_of rsa_key) (lookup_only false) None (JBool false));
    reflexivity.
Defined.

Lemma new_onlyreturnexisting_by_modulus_witness :
  let M := verified (newaccount_request rsa_key (lookup_only true)) in
  Account.new (H := helper) (M := M) server "" (world [alice]) =
  Ok (Account.existing_response (M := M) server (row_name alice),
      world [alice]).
Proof.
  intros M.
  apply (new_onlyreturnexisting_by_modulus
           (H := helper) (M := M) server "" (world [alice]) None None
           (protected_of rsa_key) (lookup_only true) None (JBool true)
           (Some [("kty", JStr "RSA"); ("n", JStr "0vx7agoebGcQSuu");
                  ("e", JStr "AQAB")]));
    reflexivity.
Defined.

(** C2 as stated fails for an embedded key without modulus (an EC key): the
    answer is neither the name of an account nor [accountDoesNotExist]. *)
Lemma onlyreturnexisting_ec_key_counterexample :
  let M := verified (newaccount_request ec_key (lookup_only true)) in
  truthy (JBool true) = true /\
  ~ (exists w',
       (exists name,
          Account.new (H := helper) (M := M) server "" (world [alice]) =
          Ok (Account.existing_response (M := M) server name, w')) \/
       (exists code detail,
          Account.new (H := helper) (M := M) server "" (world [alice]) =
          Ok (prepare_response (Message := M) empty_response
                (code, Some "urn:ietf:params:acme:error:accountDoesNotExist",
                 detail), w'))).
Proof.
  intros M. split; [ reflexivity | ].
  intros [w' [ [name E] | [code [detail E]] ]].
  - vm_compute in E. discriminate E.
  - vm_compute in E. injection E as Hcode Hdata _. subst code.
    discriminate Hdata.
Qed.


(** C6, on the code.  A list of contacts that holds an item that is not a
    string and fails the email validation is not answered 400
    [invalidContact]: [contact_check] raises [TypeError] when it joins the
    contacts for the detail, and so does [new]. *)
Theorem new_contact_item_not_string_raises :
  let refused_contacts := JList [JStr "mailto:a@example.org"; JNum 1] in
  let payload :=
    [("termsofserviceagreed", JBool true); ("contact", refused_contacts)] in
  let M := verified (newaccount_request rsa_key payload) in
  validate_email (Helper := helper) refused_contacts = false /\
  Account.contact_check (H := helper) payload = Raise TypeError /\
  Account.new (H := helper) (M := M) server "" (world []) = Raise TypeError.
Proof. repeat split. Qed.

Lemma parse_other_status_malformed_witness :
  let M := verified (status_request (row_name alice) "revoked") in
  exists detail,
    Account.parse (M := M) "" (world [alice]) =
    Ok (Account.error_response (M := M) 400
          "urn:ietf:params:acme:error:malformed" (Some detail),
        world [alice]).
Proof.
  intros M.
  destruct (parse_other_status_malformed
              (M := M) "" (world [alice]) 200 None None
              [("alg", JStr "RS256");
               ("kid", JStr (server ++ "/acme/acct/" ++ row_name alice));
               ("nonce", JStr "N2");
               ("url", JStr (server ++ "/acme/acct/" ++ row_name alice))]
              [("status", JStr "revoked")] (Some (row_name alice)) eq_refl)
    as [Hmalformed _].
  apply Hmalformed; [ reflexivity | ].
  right. exists "revoked". split; [ reflexivity | discriminate ].
Defined.

(** C7 as stated fails for a status that is not "deactivated" but reads so
    in lower case: the answer is 200 and the account is gone. *)
Lemma capitalised_status_counterexample :
  let M := verified (status_request (row_name alice) "Deactivated") in
  "Deactivated" <> "deactivated" /\
  ~ (exists resp w',
       Account.parse (M := M) "" (world [alice]) = Ok (resp, w') /\
       r_code resp = Some 400 /\
       dbstore w' = dbstore (world [alice])).
Proof.
  intros M. split; [ discriminate | ].
  intros [resp [w' [Hparse [Hcode _]]]].
  vm_compute in Hparse. injection Hparse as Hresp _. subst resp.
  discriminate Hcode.
Qed.


Lemma acct_has_no_method_guard_witness :
  let M := verified (status_request (row_name alice) "deactivated") in
  let S := services M (world [alice]) in
  Wsgi.application (S := S) (request "GET" "/acme/acct/kP3dZ0aTq1Lx") =
  (response_dic <-
     Wsgi.account_parse (Services := S) server "" ;;
   Wsgi.json_reply response_dic).
Proof.
  intros M S.
  apply (acct_has_no_method_guard (S := S)
           (request "GET" "/acme/acct/kP3dZ0aTq1Lx")).
  left. reflexivity.
Defined.

End Instances.

(** * Further properties of the account service *)

Section AccountEdges.

Context {H : Helper} {M : Message}.
Variable server_name : string.

Import Account.

Lemma set_dbstore_same (w : World) : set_dbstore w (dbstore w) = w.
Proof. now destruct w. Qed.

(** X1.  [add] refuses a protected header without [alg] or without [jwk],
    and an empty contact, with 400 [malformed] "incomplete protectedpayload":
    the name is drawn all the same (12 draws are used up), the account table
    is not touched. *)
Theorem add_incomplete_request (content : dict) (contact : json) (w : World) :
  has_key "alg" content = false \/ has_key "jwk" content = false \/
  truthy contact = false ->
  exists w',
    add content contact w =
      Ok ((400, Some "urn:ietf:params:acme:error:malformed",
           Some "incomplete protectedpayload"), w') /\
    dbstore w' = dbstore w /\
    drawn w' = (drawn w + 12)%nat.
Proof.
  intros Hmissing. unfold add.
  destruct (generate_random_string 12 w) as [nm w1] eqn:G.
  assert (Hw1 : dbstore w1 = dbstore w /\ drawn w1 = (drawn w + 12)%nat).
  { unfold generate_random_string in G. inversion G. now split. }
  assert (Hguard : has_key "alg" content && has_key "jwk" content
                   && truthy contact = false).
  { destruct Hmissing as [ -> | [ -> | -> ] ];
      [ reflexivity | now rewrite andb_false_r | now rewrite andb_false_r ]. }
  rewrite Hguard. exists w1. now split.
Qed.


End AccountEdges.

Section NewEdges.

Context {H : Helper} {M : Message}.
Variable server_name : string.

Import Account.

(** X4.  When the envelope verification fails (a code other than 200 and
    201), [new] runs none of its checks: the answer is built from the code,
    message and detail of [Message.check] and the state is returned as it
    was; only a detail that reads "tosfalse" is replaced by the
    terms-of-service sentence. *)
Theorem new_passes_envelope_error
        (content : string) (w : World) (code : Z) (m d : option string)
        (protected payload : dict) (an : option string) :
  check content true (dbstore w) = (code, m, d, protected, payload, an) ->
  code <> 200 -> code <> 201 ->
  new server_name content w =
  Ok (prepare_response empty_response
        (code, m,
         match d with
         | Some text =>
             if String.eqb text "tosfalse"
             then Some "Terms of service must be accepted" else d
         | None => d
         end), w).
Proof.
  intros Hcheck H200 H201. unfold new. rewrite Hcheck.
  apply Z.eqb_neq in H200, H201. rewrite H200. simpl.
  rewrite H200, H201. reflexivity.
Qed.

(** X6.  The detail of the [invalidContact] answer to a refused list of
    contacts is the contacts joined by ", " -- unless that text is
    "tosfalse", which [new] takes for the mark of the terms-of-service check
    and replaces by "Terms of service must be accepted". *)
Theorem new_invalid_contact_detail
        (content : string) (w : World) (m d : option string)
        (protected payload : dict) (an : option string)
        (l : list json) (ss : list string) :
  check content true (dbstore w) = (200, m, d, protected, payload, an) ->
  has_key "onlyreturnexisting" payload = false ->
  agreed payload = true ->
  lookup "contact" payload = Some (JList l) ->
  all_strings l = Some ss ->
  validate_email (JList l) = false ->
  new server_name content w =
  Ok (error_response 400 "urn:ietf:params:acme:error:invalidContact"
        (Some (if String.eqb (join ", " ss) "tosfalse"
               then "Terms of service must be accepted"
               else join ", " ss)), w).
Proof.
  intros Hcheck Hore Htos Hcontact Hss Hbad.
  unfold new. rewrite Hcheck. simpl.
  rewrite Hore, tos_check_agreed, Htos. simpl.
  unfold contact_check.
  rewrite (has_key_lookup _ _ _ Hcontact), (getitem_lookup _ _ _ Hcontact).
  simpl. rewrite Hbad. simpl. rewrite Hss. simpl.
  unfold error_response.
  destruct (String.eqb (join ", " ss) "tosfalse"); reflexivity.
Qed.

(** X7.  A refused contact that cannot be joined makes [new] raise
    [TypeError] instead of answering [invalidContact]: a contact that is
    null, a boolean or a number, or a list with an item that is not a
    string. *)
Theorem new_unjoinable_contact_raises
        (content : string) (w : World) (m d : option string)
        (protected payload : dict) (an : option string) (contact : json) :
  check content true (dbstore w) = (200, m, d, protected, payload, an) ->
  has_key "onlyreturnexisting" payload = false ->
  agreed payload = true ->
  lookup "contact" payload = Some contact ->
  validate_email contact = false ->
  (contact = JNull \/ (exists b, contact = JBool b) \/
   (exists n, contact = JNum n) \/
   (exists l, contact = JList l /\ all_strings l = None)) ->
  new server_name content w = Raise TypeError.
Proof.
  intros Hcheck Hore Htos Hcontact Hbad Hshape.
  unfold new. rewrite Hcheck. simpl.
  rewrite Hore, tos_check_agreed, Htos. simpl.
  unfold contact_check.
  rewrite (has_key_lookup _ _ _ Hcontact), (getitem_lookup _ _ _ Hcontact).
  simpl. rewrite Hbad. simpl.
  destruct Hshape as [ -> | [ [b ->] | [ [n ->] | [l [-> Hl]] ] ] ];
    simpl; try reflexivity.
  now rewrite Hl.
Qed.

(** X8.  With [onlyreturnexisting] set, an embedded key that is not a JSON
    object is answered 400 [malformed] "n value missing" only when it is a
    string without the letter n or a list without the item "n"; any other
    such key (a string with an n in it, a list holding "n", null, a boolean,
    a number) makes [new] raise [TypeError]. *)
Theorem new_onlyreturnexisting_key_not_object
        (content : string) (w : World) (m d : option string)
        (protected payload : dict) (an : option string) (flag jwk : json) :
  check content true (dbstore w) = (200, m, d, protected, payload, an) ->
  lookup "onlyreturnexisting" payload = Some flag ->
  truthy flag = true ->
  lookup "jwk" protected = Some jwk ->
  (forall key, jwk <> JDict key) ->
  new server_name content w =
  match py_in "n" jwk with
  | Ok false =>
      Ok (error_response 400 "urn:ietf:params:acme:error:malformed"
            (Some "n value missing"), w)
  | _ => Raise TypeError
  end.
Proof.
  intros Hcheck Hflag Htrue Hjwk Hshape.
  unfold new. rewrite Hcheck. simpl.
  rewrite (has_key_lookup _ _ _ Hflag).
  unfold onlyreturnexisting.
  rewrite (getitem_lookup _ _ _ Hflag). simpl. rewrite Htrue.
  rewrite (has_key_lookup _ _ _ Hjwk), (getitem_lookup _ _ _ Hjwk).
  cbn [bind].
  destruct jwk as [ | b | n | s | l | key ]; unfold py_in; cbn [bind];
    try reflexivity.
  - destruct (contains "n" s); reflexivity.
  - destruct (existsb (json_eqb (JStr "n")) l); reflexivity.
  - now elim (Hshape key).
Qed.

End NewEdges.

Section ParseEdges.

Context {M : Message}.

Import Account.

(** X9.  When the envelope verification fails, [parse] answers with the
    code, message and detail of [Message.check], and returns the state as it
    was. *)
Theorem parse_passes_envelope_error
        (content : string) (w : World) (code : Z) (m d : option string)
        (protected payload : dict) (an : option string) :
  check content false (dbstore w) = (code, m, d, protected, payload, an) ->
  code <> 200 ->
  parse content w = Ok (prepare_response empty_response (code, m, d), w).
Proof.
  intros Hcheck Hcode. unfold parse. rewrite Hcheck.
  apply Z.eqb_neq in Hcode. rewrite Hcode. reflexivity.
Qed.

(** X10.  A status that is not a string (null, a boolean, a number, a list,
    an object) makes [parse] raise [AttributeError]: no answer is built. *)
Theorem parse_status_not_string_raises
        (content : string) (w : World) (m d : option string)
        (protected payload : dict) (an : option string) (v : json) :
  check content false (dbstore w) = (200, m, d, protected, payload, an) ->
  lookup "status" payload = Some v ->
  (forall s, v <> JStr s) ->
  parse content w = Raise AttributeError.
Proof.
  intros Hcheck Hv Hshape. unfold parse. rewrite Hcheck. simpl.
  rewrite (has_key_lookup _ _ _ Hv), (getitem_lookup _ _ _ Hv). simpl.
  destruct v as [ | b | n | s | l | o ]; try reflexivity.
  now elim (Hshape s).
Qed.

Lemma delete_missing (aname : option string) (w : World) :
  (forall r, In r (dbstore w) -> Store.named aname r = false) ->
  delete aname w =
  ((400, Some accountDoesNotExist, Some "deletion failed"), w).
Proof.
  intros Hnamed. unfold delete, Store.account_delete.
  replace (existsb (Store.named aname) (dbstore w)) with false.
  - rewrite (deactivate_other aname (dbstore w) Hnamed).
    now rewrite set_dbstore_same.
  - symmetry. apply not_true_is_false. intros Hex.
    apply existsb_exists in Hex. destruct Hex as [r [Hr Hn]].
    rewrite (Hnamed r Hr) in Hn. discriminate.
Qed.

(** X11.  Deactivating an account the table does not hold (or a request
    that [Message.check] bound to no account) is answered 400
    [accountDoesNotExist] "deletion failed", and the state is returned as it
    was. *)
Theorem parse_deactivation_unknown_account
        (content : string) (w : World) (m d : option string)
        (protected payload : dict) (an : option string) (st : string) :
  check content false (dbstore w) = (200, m, d, protected, payload, an) ->
  lookup "status" payload = Some (JStr st) ->
  lower st = "deactivated" ->
  (an = None \/
   exists a, an = Some a /\ forall r, In r (dbstore w) -> row_name r <> a) ->
  parse content w =
  Ok (error_response 400 "urn:ietf:params:acme:error:accountDoesNotExist"
        (Some "deletion failed"), w).
Proof.
  intros Hcheck Hstatus Hlow Hunknown.
  assert (Hnamed : forall r, In r (dbstore w) -> Store.named an r = false).
  { intros r Hr. destruct Hunknown as [ -> | [a [-> Hall]] ]; simpl.
    - reflexivity.
    - apply String.eqb_neq. now apply Hall. }
  unfold parse. rewrite Hcheck. simpl.
  rewrite (has_key_lookup _ _ _ Hstatus), (getitem_lookup _ _ _ Hstatus).
  simpl. rewrite Hlow. simpl.
  rewrite (delete_missing an w Hnamed). reflexivity.
Qed.

End ParseEdges.

(** * Further properties of the dispatcher *)

Section DispatcherEdges.

Import Wsgi.

Lemma code_lookup_unlisted (c : Z) (table : list (Z * string)) :
  ~ In c (map fst table) -> code_lookup c table = Raise KeyError.
Proof.
  induction table as [ | [c' phrase] rest IH ]; simpl; intros Hnot.
  - reflexivity.
  - destruct (c =? c') eqn:E.
    + apply Z.eqb_eq in E. subst. elim Hnot. now left.
    + apply IH. intros Hin. apply Hnot. now right.
Qed.

Lemma code_lookup_listed (c : Z) (table : list (Z * string)) :
  In c (map fst table) -> exists phrase, code_lookup c table = Ok phrase.
Proof.
  induction table as [ | [c' phrase] rest IH ]; simpl; intros Hin.
  - destruct Hin.
  - destruct (c =? c') eqn:E.
    + now exists phrase.
    + apply IH. destruct Hin as [ <- | Hin ]; [ | assumption ].
      rewrite Z.eqb_refl in E. discriminate.
Qed.

Lemma substring_prefix (n : nat) (s : string) :
  String.prefix (substring 0 n s) s = true /\
  String.length (substring 0 n s) = Nat.min n (String.length s).
Proof.
  revert s. induction n as [ | n IH ]; intros s.
  - destruct s; split; reflexivity.
  - destruct s as [ | c s ]; [ split; reflexivity | ].
    simpl. destruct (IH s) as [Hp Hl]. rewrite Hl.
    destruct (ascii_dec c c) as [ _ | Hne ]; [ | now elim Hne ].
    now split.
Qed.

Lemma lstrip_first (chars s : string) :
  lstrip chars s = "" \/
  exists c rest,
    lstrip chars s = String c rest /\
    existsb (Ascii.eqb c) (list_ascii_of_string chars) = false.
Proof.
  induction s as [ | c s IH ]; simpl.
  - now left.
  - destruct (existsb (Ascii.eqb c) (list_ascii_of_string chars)) eqn:E.
    + exact IH.
    + right. now exists c, s.
Qed.

Lemma in_list_ascii_app (c : ascii) (p q : string) :
  In c (list_ascii_of_string p) -> In c (list_ascii_of_string (p ++ q)).
Proof.
  induction p as [ | a p IH ]; simpl; intros Hin.
  - destruct Hin.
  - destruct Hin as [ -> | Hin ]; [ now left | right; now apply IH ].
Qed.

Lemma slash_in_prefix (p : string) :
  existsb (Ascii.eqb "/") (list_ascii_of_string (p ++ "/")) = true.
Proof.
  induction p as [ | a p IH ]; simpl.
  - reflexivity.
  - rewrite IH. apply orb_true_r.
Qed.

(** X13.  The status line exists only for the eight codes of the table: a
    response with one of them gets "<code> <phrase>", and for any other
    code (204, 409, 503, ...) the handlers raise [KeyError] instead of
    answering. *)
Theorem status_line_only_for_listed_codes (r : response) (c : Z) :
  r_code r = Some c ->
  (In c [200; 201; 400; 401; 403; 404; 405; 500] ->
   exists phrase,
     In (c, phrase) HTTP_CODE_DIC /\
     status_of r = Ok (str_of_Z c ++ " " ++ phrase)) /\
  (~ In c [200; 201; 400; 401; 403; 404; 405; 500] ->
   status_of r = Raise KeyError /\
   json_reply r = Raise KeyError /\
   json_reply_if_data r = Raise KeyError).
Proof.
  intros Hc. split.
  - intros Hin. unfold status_of. rewrite Hc. simpl.
    repeat (destruct Hin as [ <- | Hin ];
            [ eexists; split; [ | reflexivity ]; simpl; tauto | ]).
    destruct Hin.
  - intros Hnot.
    assert (Hs : status_of r = Raise KeyError).
    { unfold status_of. rewrite Hc. cbn [entry bind].
      now rewrite (code_lookup_unlisted c HTTP_CODE_DIC Hnot). }
    unfold json_reply, json_reply_if_data, create_header. rewrite Hs.
    repeat split; destruct (r_header r); reflexivity.
Qed.

(** X14.  For a [CONTENT_LENGTH] that [read] accepts as a size (from 0 to
    below [2^63]), the body handed to the services is a prefix of
    [wsgi.input] of [CONTENT_LENGTH] characters, or all of the input when
    that is shorter; a request without [CONTENT_LENGTH], or with one that is
    no number, has an empty body whatever the input holds. *)
Theorem get_request_body_is_prefix (env : environ) :
  let size :=
    match CONTENT_LENGTH env with
    | Some (Some n) => n
    | _ => 0
    end in
  0 <= size < 2 ^ 63 ->
  String.prefix (get_request_body env) (wsgi_input env) = true /\
  Z.of_nat (String.length (get_request_body env)) =
    Z.min size (Z.of_nat (String.length (wsgi_input env))).
Proof.
  intros size Hsize. unfold get_request_body, read.
  replace (match CONTENT_LENGTH env with
           | Some (Some n) => n
           | Some None => 0
           | None => 0
           end) with size
    by (unfold size; destruct (CONTENT_LENGTH env) as [ [ n | ] | ];
        reflexivity).
  destruct (size <? 0) eqn:E; [ apply Z.ltb_lt in E; lia | ].
  destruct (substring_prefix (Z.to_nat size) (wsgi_input env)) as [Hp Hl].
  split; [ exact Hp | ]. rewrite Hl. lia.
Qed.

Context {S : Services}.

(** X15.  The routes [acme/newaccount], [acme/newnonce] and
    [acme/neworders] are exact: a path that goes on after one of them (by
    anything but a final newline) is answered by [not_found]. *)
Theorem exact_routes_reject_longer_paths (env : environ) (rest : string) :
  path_of env = "acme/newaccount" ++ rest \/
  path_of env = "acme/newnonce" ++ rest \/
  path_of env = "acme/neworders" ++ rest ->
  rest <> "" -> rest <> String "010"%char "" ->
  application env = not_found env.
Proof.
  intros Hpath Hne Hnl.
  assert (Hend : at_end rest = false).
  { unfold at_end. apply orb_false_iff.
    split; now apply String.eqb_neq. }
  unfold application.
  destruct Hpath as [ -> | [ -> | -> ] ]; cbn -[at_end];
    rewrite Hend; reflexivity.
Qed.

(** X16.  [lstrip] takes its argument for a set of characters.  With a
    configured [url_prefix] that has the letter a in it, the path the
    patterns see never begins with a, so none of the [acme/...] routes can
    be reached: every request is answered by [directory], [trigger] or
    [not_found]. *)
Theorem url_prefix_with_a_hides_acme_routes (p : string) (env : environ) :
  url_prefix = Some p ->
  In "a"%char (list_ascii_of_string p) ->
  application env = directory env \/
  application env = trigger env \/
  application env = not_found env.
Proof.
  intros Hprefix Hin. unfold application, path_of. rewrite Hprefix.
  set (raw := match PATH_INFO env with Some q => q | None => "" end).
  destruct (lstrip_first (p ++ "/") raw) as [ -> | [c [rest [-> Hc]]] ].
  - left. reflexivity.
  - assert (Hca : Ascii.eqb "a" c = false).
    { destruct (Ascii.eqb "a" c) eqn:E; [ | reflexivity ].
      apply Ascii.eqb_eq in E. subst c.
      assert (Hex : existsb (Ascii.eqb "a")
                      (list_ascii_of_string (p ++ "/")) = true).
      { apply existsb_exists. exists "a"%char.
        split; [ now apply in_list_ascii_app | apply Ascii.eqb_refl ]. }
      rewrite Hex in Hc. discriminate. }
    cbn -[at_end Ascii.eqb]. rewrite Hca. cbn -[at_end Ascii.eqb].
    repeat match goal with
           | |- context [ if ?b then _ else _ ] => destruct b
           end; tauto.
Qed.

(** X17.  A path that begins with none of the letters a, d and t (and is
    not a lone newline) matches no pattern and is answered by
    [not_found]. *)
Theorem other_first_letter_not_found (env : environ) (c : ascii) (rest : string) :
  path_of env = String c rest ->
  c <> "a"%char -> c <> "d"%char -> c <> "t"%char -> c <> "010"%char ->
  application env = not_found env.
Proof.
  intros Hpath Ha Hd Ht Hnl. unfold application. rewrite Hpath.
  apply not_eq_sym in Ha, Hd, Ht, Hnl.
  apply Ascii.eqb_neq in Ha, Hd, Ht.
  assert (Hend : at_end (String c rest) = false).
  { unfold at_end. simpl.
    destruct (Ascii.eqb c "010") eqn:E; [ | reflexivity ].
    apply Ascii.eqb_eq in E. subst c. now elim Hnl. }
  cbn -[at_end Ascii.eqb]. rewrite Hend, Ha, Hd, Ht. reflexivity.
Qed.

(** X18.  Leading slashes do not count: putting one more "/" in front of
    [PATH_INFO] leaves the path the patterns are tried on, and so the
    handler chosen, as they were. *)
Theorem extra_leading_slash_ignored (env : environ) (p : string) :
  PATH_INFO env = Some p ->
  let env' :=
    {| REQUEST_METHOD := REQUEST_METHOD env;
       PATH_INFO := Some (String "/" p);
       CONTENT_LENGTH := CONTENT_LENGTH env;
       wsgi_input := wsgi_input env |} in
  path_of env' = path_of env /\
  route URLS (path_of env') = route URLS (path_of env).
Proof.
  intros Hp env'.
  assert (Hsame : path_of env' = path_of env).
  { unfold path_of, env'. rewrite Hp. cbn [PATH_INFO].
    destruct url_prefix as [ q | ]; [ | reflexivity ].
    cbn [lstrip]. now rewrite slash_in_prefix. }
  split; [ exact Hsame | now rewrite Hsame ].
Qed.

(** X19.  For a request that has a [PATH_INFO], the directory is served
    without a look at the request method, on the empty path and on the
    paths "directory" and "director" (the pattern reads [directory?]). *)
Theorem directory_on_every_method (env : environ) :
  PATH_INFO env <> None ->
  In (path_of env) [""; "directory"; "director"] ->
  application env =
  Ok {| status_line := "200 OK";
        headers := [("Content-Type", "application/json")];
        body := [Dumps (directory_get (get_url env false))] |}.
Proof.
  intros _ Hpath. unfold application.
  destruct Hpath as [ <- | [ <- | [ <- | [] ] ] ]; reflexivity.
Qed.


(** X21.  A posted certificate request is answered with the headers of the
    service alone (no JSON content type) and the data as text; data that
    is not a string makes [cert] raise [AttributeError]. *)
Theorem cert_post_sends_text
        (env : environ) (r : response) (h : list (string * string))
        (line : string) (data : json) :
  REQUEST_METHOD env = "POST" ->
  certificate_new_post (get_url env false) (get_request_body env) = Ok r ->
  r_header r = Some h ->
  status_of r = Ok line ->
  r_data r = Some data ->
  cert env =
  match data with
  | JStr text =>
      Ok {| status_line := line; headers := h; body := [Encoded text] |}
  | _ => Raise AttributeError
  end.
Proof.
  intros Hm Hr Hh Hline Hd. unfold cert.
  rewrite Hm, Hr. cbn -[status_of]. unfold create_header.
  rewrite Hh. cbn -[status_of]. rewrite Hline. cbn -[status_of].
  rewrite Hd. reflexivity.
Qed.

(** X22.  A service response without [data]: [revokecert] and [trigger]
    answer with an empty body, while the handlers that always send the
    data ([newaccount], [acct], [neworders], [order]) raise [KeyError]
    after the status line is made. *)
Theorem response_without_data
        (r : response) (h : list (string * string)) (line : string) :
  r_data r = None ->
  r_header r = Some h ->
  status_of r = Ok line ->
  json_reply_if_data r =
    Ok {| status_line := line;
          headers := ("Content-Type", "application/json") :: h;
          body := [] |} /\
  json_reply r = Raise KeyError /\
  (forall env,
     REQUEST_METHOD env = "POST" ->
     (certificate_revoke (get_url env false) (get_request_body env) = Ok r ->
      revokecert env = json_reply_if_data r) /\
     (trigger_parse (get_url env false) (get_request_body env) = Ok r ->
      trigger env = json_reply_if_data r) /\
     (account_new (get_url env false) (get_request_body env) = Ok r ->
      newaccount env = Raise KeyError)).
Proof.
  intros Hd Hh Hline.
  assert (Hreply : json_reply r = Raise KeyError).
  { unfold json_reply, create_header. now rewrite Hh, Hline, Hd. }
  split; [ | split; [ exact Hreply | ] ].
  - unfold json_reply_if_data, create_header. now rewrite Hh, Hline, Hd.
  - intros env Hm. unfold revokecert, trigger, newaccount. rewrite Hm.
    repeat split; intros ->; cbn -[json_reply json_reply_if_data];
      [ reflexivity | reflexivity | exact Hreply ].
Qed.

End DispatcherEdges.

(** ** These properties at concrete requests *)

Section EdgeInstances.

Import Example.

Lemma add_incomplete_request_witness :
  exists w',
    Account.add [("alg", JStr "RS256")] contact (world [alice]) =
      Ok ((400, Some "urn:ietf:params:acme:error:malformed",
           Some "incomplete protectedpayload"), w') /\
    dbstore w' = [alice] /\ drawn w' = 12%nat.
Proof.
  apply (add_incomplete_request
           [("alg", JStr "RS256")] contact (world [alice])).
  right. left. reflexivity.
Defined.

Lemma new_passes_envelope_error_witness :
  let M := verified (refused 400 "urn:ietf:params:acme:error:badNonce" "xxx") in
  Account.new (H := helper) (M := M) server "" (world [alice]) =
  Ok (prepare_response (Message := M) empty_response
        (400, Some "urn:ietf:params:acme:error:badNonce", Some "xxx"),
      world [alice]).
Proof.
  intros M.
  apply (new_passes_envelope_error (H := helper) (M := M) server ""
           (world [alice]) 400 (Some "urn:ietf:params:acme:error:badNonce")
           (Some "xxx") [] [] None);
    [ reflexivity | discriminate | discriminate ].
Defined.

Lemma new_invalid_contact_detail_witness :
  let payload :=
    [("termsofserviceagreed", JBool true);
     ("contact", JList [JStr "tosfalse"])] in
  let M := verified (newaccount_request rsa_key payload) in
  Account.new (H := helper) (M := M) server "" (world []) =
  Ok (Account.error_response (M := M) 400
        "urn:ietf:params:acme:error:invalidContact"
        (Some "Terms of service must be accepted"), world []).
Proof.
  intros payload M.
  apply (new_invalid_contact_detail (H := helper) (M := M) server ""
           (world []) None None (protected_of rsa_key) payload None
           [JStr "tosfalse"] ["tosfalse"]);
    reflexivity.
Defined.

Lemma new_unjoinable_contact_raises_witness :
  let payload :=
    [("termsofserviceagreed", JBool true); ("contact", JNum 5)] in
  let M := verified (newaccount_request rsa_key payload) in
  Account.new (H := helper) (M := M) server "" (world []) = Raise TypeError.
Proof.
  intros payload M.
  apply (new_unjoinable_contact_raises (H := helper) (M := M) server ""
           (world []) None None (protected_of rsa_key) payload None (JNum 5));
    try reflexivity.
  right. right. left. now exists 5.
Defined.

Lemma new_onlyreturnexisting_key_not_object_witness :
  let M := verified (newaccount_request (JStr "none") (lookup_only true)) in
  Account.new (H := helper) (M := M) server "" (world [alice]) =
  Raise TypeError.
Proof.
  intros M.
  apply (new_onlyreturnexisting_key_not_object (H := helper) (M := M) server ""
           (world [alice]) None None (protected_of (JStr "none"))
           (lookup_only true) None (JBool true) (JStr "none"));
    try reflexivity.
  discriminate.
Defined.

Lemma parse_passes_envelope_error_witness :
  let M := verified (refused 401 "urn:ietf:params:acme:error:unauthorized"
                       "invalid signature") in
  Account.parse (M := M) "" (world [alice]) =
  Ok (prepare_response (Message := M) empty_response
        (401, Some "urn:ietf:params:acme:error:unauthorized",
         Some "invalid signature"), world [alice]).
Proof.
  intros M.
  apply (parse_passes_envelope_error (M := M) "" (world [alice]) 401
           (Some "urn:ietf:params:acme:error:unauthorized")
           (Some "invalid signature") [] [] None);
    [ reflexivity | discriminate ].
Defined.

Lemma parse_status_not_string_raises_witness :
  let M :=
    verified (200, None, None, [], [("status", JNum 1)],
              Some (row_name alice)) in
  Account.parse (M := M) "" (world [alice]) = Raise AttributeError.
Proof.
  intros M.
  apply (parse_status_not_string_raises (M := M) "" (world [alice]) None None
           [] [("status", JNum 1)] (Some (row_name alice)) (JNum 1));
    try reflexivity.
  discriminate.
Defined.

Lemma parse_deactivation_unknown_account_witness :
  let M := verified (status_request "nobody" "deactivated") in
  Account.parse (M := M) "" (world [alice]) =
  Ok (Account.error_response (M := M) 400
        "urn:ietf:params:acme:error:accountDoesNotExist"
        (Some "deletion failed"), world [alice]).
Proof.
  intros M.
  apply (parse_deactivation_unknown_account (M := M) "" (world [alice])
           None None
           [("alg", JStr "RS256");
            ("kid", JStr (server ++ "/acme/acct/" ++ "nobody"));
            ("nonce", JStr "N2");
            ("url", JStr (server ++ "/acme/acct/" ++ "nobody"))]
           [("status", JStr "deactivated")] (Some "nobody") "deactivated");
    try reflexivity.
  right. exists "nobody". split; [ reflexivity | ].
  intros r [ <- | [] ]. discriminate.
Defined.

Lemma status_line_only_for_listed_codes_witness :
  Wsgi.status_of {| r_code := Some 204; r_header := Some []; r_data := None |}
  = Raise KeyError /\
  Wsgi.status_of {| r_code := Some 404; r_header := Some []; r_data := None |}
  = Ok "404 Not Found".
Proof.
  split.
  - destruct (status_line_only_for_listed_codes
                {| r_code := Some 204; r_header := Some []; r_data := None |}
                204 eq_refl) as [_ Hunlisted].
    apply Hunlisted. simpl. intuition discriminate.
  - destruct (status_line_only_for_listed_codes
                {| r_code := Some 404; r_header := Some []; r_data := None |}
                404 eq_refl) as [Hlisted _].
    destruct Hlisted as [phrase [_ Hline]]; [ simpl; tauto | ].
    reflexivity.
Defined.

Lemma get_request_body_is_prefix_witness :
  String.prefix
    (Wsgi.get_request_body (upload "POST" "/acme/newaccount" 3 "abcdef"))
    "abcdef" = true /\
  Z.of_nat
    (String.length
       (Wsgi.get_request_body (upload "POST" "/acme/newaccount" 3 "abcdef")))
  = 3.
Proof.
  apply (get_request_body_is_prefix
           (upload "POST" "/acme/newaccount" 3 "abcdef")).
  simpl. lia.
Defined.

Lemma exact_routes_reject_longer_paths_witness :
  Wsgi.application (S := answering None empty_response)
    (request "POST" "/acme/newaccount/again")
  = Wsgi.not_found (request "POST" "/acme/newaccount/again").
Proof.
  apply (exact_routes_reject_longer_paths (S := answering None empty_response)
           (request "POST" "/acme/newaccount/again") "/again");
    [ left; reflexivity | discriminate | discriminate ].
Defined.

Lemma url_prefix_with_a_hides_acme_routes_witness :
  let S := answering (Some "/ca") empty_response in
  let env := request "GET" "/ca/acme/newnonce" in
  Wsgi.path_of (S := S) env = "me/newnonce" /\
  (Wsgi.application (S := S) env = Wsgi.directory (S := S) env \/
   Wsgi.application (S := S) env = Wsgi.trigger (S := S) env \/
   Wsgi.application (S := S) env = Wsgi.not_found env).
Proof.
  intros S env. split; [ reflexivity | ].
  apply (url_prefix_with_a_hides_acme_routes (S := S) "/ca" env).
  - reflexivity.
  - simpl. tauto.
Defined.

Lemma other_first_letter_not_found_witness :
  Wsgi.application (S := answering None empty_response)
    (request "GET" "/favicon.ico")
  = Wsgi.not_found (request "GET" "/favicon.ico").
Proof.
  apply (other_first_letter_not_found (S := answering None empty_response)
           (request "GET" "/favicon.ico") "f"%char "avicon.ico");
    [ reflexivity | discriminate .. ].
Defined.

Lemma extra_leading_slash_ignored_witness :
  Wsgi.path_of (S := answering None empty_response)
    (request "POST" "//acme/neworders")
  = Wsgi.path_of (S := answering None empty_response)
      (request "POST" "/acme/neworders").
Proof.
  apply (extra_leading_slash_ignored (S := answering None empty_response)
           (request "POST" "/acme/neworders") "/acme/neworders" eq_refl).
Defined.

Lemma directory_on_every_method_witness :
  Wsgi.application (S := answering None empty_response)
    (request "DELETE" "/director")
  = Ok {| Wsgi.status_line := "200 OK";
          Wsgi.headers := [("Content-Type", "application/json")];
          Wsgi.body := [Wsgi.Dumps (JDict [])] |}.
Proof.
  apply (directory_on_every_method (S := answering None empty_response)
           (request "DELETE" "/director")).
  - discriminate.
  - simpl. tauto.
Defined.


Lemma cert_post_sends_text_witness :
  let r := {| r_code := Some 200;
              r_header := Some [("Content-Type", "application/pem-certificate-chain")];
              r_data := Some (JStr "-----BEGIN CERTIFICATE-----") |} in
  Wsgi.cert (S := answering None r) (request "POST" "/acme/cert/x")
  = Ok {| Wsgi.status_line := "200 Created";
          Wsgi.headers := [("Content-Type", "application/pem-certificate-chain")];
          Wsgi.body := [Wsgi.Encoded "-----BEGIN CERTIFICATE-----"] |}.
Proof.
  intros r.
  apply (cert_post_sends_text (S := answering None r)
           (request "POST" "/acme/cert/x") r
           [("Content-Type", "application/pem-certificate-chain")]
           "200 Created" (JStr "-----BEGIN CERTIFICATE-----"));
    reflexivity.
Defined.

Lemma response_without_data_witness :
  let r := {| r_code := Some 200; r_header := Some []; r_data := None |} in
  Wsgi.json_reply_if_data r =
    Ok {| Wsgi.status_line := "200 Created";
          Wsgi.headers := [("Content-Type", "application/json")];
          Wsgi.body := [] |} /\
  Wsgi.newaccount (S := answering None r) (request "POST" "/acme/newaccount")
  = Raise KeyError.
Proof.
  intros r.
  destruct (response_without_data (S := answering None r) r [] "200 Created"
              eq_refl eq_refl eq_refl) as [Hreply [_ Hhandlers]].
  split; [ exact Hreply | ].
  destruct (Hhandlers (request "POST" "/acme/newaccount") eq_refl)
    as [_ [_ Hnew]].
  now apply Hnew.
Defined.

End EdgeInstances.
